(** * Sign-in response handling of [src/auth/authApp.js]

    A shallow embedding of [handlePendingSignInImpl] and [loadUserDataImpl]:
    JavaScript values as an inductive type, the session store as explicit
    state, promise rejection and [throw] as an error result, and the calls
    that leave the function (store, verifier, decryptor, key parser, fetch,
    logger) recorded in a trace, in program order. *)

From Stdlib Require Import String Ascii List ZArith Bool Lia.
Import ListNotations.
Open Scope string_scope.

(** ** JavaScript values *)

Set Warnings "-register-all".

Inductive value : Type :=
| VUndefined
| VNull
| VBool (b : bool)
| VNum (n : Z)
| VStr (s : string)
| VArr (items : list value)
| VObj (fields : list (string * value)).

(** [x !== undefined && x !== null], and the loose [x != null], are both the
    negation of this test. *)
Definition nullish (v : value) : bool :=
  match v with
  | VUndefined | VNull => true
  | _ => false
  end.

(** Own property of an object literal, [VUndefined] when it has none. *)
Fixpoint lookup_field (k : string) (fields : list (string * value)) : value :=
  match fields with
  | [] => VUndefined
  | (k', v) :: rest => if String.eqb k k' then v else lookup_field k rest
  end.

(** ** Errors *)

(** What a collaborator outside this file does when called: it returns, or
    it throws (a promise: it resolves, or it rejects). *)
Inductive outcome (A : Type) : Type :=
| Returns (a : A)
| Throws (e : string).
Arguments Returns {A} a.
Arguments Throws {A} e.

(** The two error classes this file constructs, the runtime's [TypeError]
    for a property read on [undefined] or [null], and whatever a
    collaborator threw. *)
Inductive error : Type :=
| LoginFailedError (message : string)
| InvalidStateError (message : string)
| TypeError
| Thrown (e : string).

Inductive result (A : Type) : Type :=
| OK (a : A)
| Error (e : error).
Arguments OK {A} a.
Arguments Error {A} e.

Definition isLoginFailedError (e : error) : bool :=
  match e with
  | LoginFailedError _ => true
  | _ => false
  end.

(** [w[0]] *)
Definition index0 (w : value) : result value :=
  match w with
  | VUndefined | VNull => Error TypeError
  | VArr [] => OK VUndefined
  | VArr (x :: _) => OK x
  | VObj fields => OK (lookup_field "0" fields)
  | VStr EmptyString => OK VUndefined
  | VStr (String c _) => OK (VStr (String c EmptyString))
  | VBool _ | VNum _ => OK VUndefined
  end.

(** [e.token] *)
Definition dot_token (e : value) : result value :=
  match e with
  | VUndefined | VNull => Error TypeError
  | VObj fields => OK (lookup_field "token" fields)
  | _ => OK VUndefined
  end.

(** ** Records *)

(** The claims of a decoded response token, as [decodeToken(..).payload]
    gives them; a claim the token does not carry reads as [VUndefined]. *)
Module Payload.
Record t : Type := mk {
    username : value;
    profile : value;
    iss : value;
    private_key : value;
    core_token : value;
    version : value;
    hubUrl : value;
    profile_url : value
  }.
End Payload.

Module UserData.
Record t : Type := mk {
    username : value;
    profile : value;
    decentralizedID : value;
    identityAddress : value;
    appPrivateKey : value;
    coreSessionToken : value;
    authResponseToken : string;
    hubUrl : value
  }.

  (** [userData.profile = p] *)
Definition set_profile (u : t) (p : value) : t :=
    mk (username u) p (decentralizedID u) (identityAddress u)
       (appPrivateKey u) (coreSessionToken u) (authResponseToken u) (hubUrl u).
End UserData.

Module SessionData.
Record t : Type := mk {
    transitKey : value;
    coreNode : option string;
    userData : option UserData.t
  }.

  (** [sessionData.userData = u] *)
Definition set_userData (sd : t) (u : UserData.t) : t :=
    mk (transitKey sd) (coreNode sd) (Some u).
End SessionData.

(** [const DEFAULT_PROFILE], and so [Object.assign({}, DEFAULT_PROFILE)]. *)
Definition DEFAULT_PROFILE : value :=
  VObj [("@type", VStr "Person"); ("@context", VStr "http://schema.org")].

(** ** Collaborators

    The functions and constants this file imports.  None of them is defined
    here; the development is parametric in them. *)
Record Response : Type := mkResponse {
  ok : bool;
  text : outcome string
}.

Record Collaborators : Type := mkCollaborators {
  BLOCKSTACK_DEFAULT_GAIA_HUB_URL : string;
  NAME_LOOKUP_PATH : string;
  DEFAULT_CORE_NODE : string;
  verifyAuthResponse : string -> string -> outcome bool;
  decodeToken : string -> outcome Payload.t;
  isLaterVersion : value -> string -> bool;
  decryptPrivateKey : value -> value -> outcome value;
  hexStringToECPair : value -> outcome unit;
  getAddressFromDID : value -> outcome value;
  fetch : value -> outcome Response;
  JSON_parse : string -> outcome value;
  extractProfile : value -> outcome value
}.

(** ** Effects *)

Inductive event : Type :=
| StoreGet
| StoreSet (sd : SessionData.t)
| Verify (token url : string)
| Decrypt (key ciphertext : value)
| ParseKey (hex : value)
| Fetch (url : value)
| LogWarn (msg : string)
| LogInfo (msg : string).

(** A computation runs on the session data held by [caller.store] and gives
    a result, the session data it leaves, and the calls it made. *)
Definition M (A : Type) : Type :=
  SessionData.t -> result A * SessionData.t * list event.

Definition ret {A} (a : A) : M A := fun s => (OK a, s, []).

Definition throw {A} (e : error) : M A := fun s => (Error e, s, []).

Definition bind {A B} (m : M A) (f : A -> M B) : M B :=
  fun s =>
    match m s with
    | (OK a, s1, t1) =>
        match f a s1 with
        | (r, s2, t2) => (r, s2, (t1 ++ t2)%list)
        end
    | (Error e, s1, t1) => (Error e, s1, t1)
    end.

Notation "x <- m ;; k" := (bind m (fun x => k))
  (at level 61, m at next level, right associativity).
Notation "m ;;; k" := (bind m (fun _ => k))
  (at level 61, right associativity).

Definition emit (ev : event) : M unit := fun s => (OK tt, s, [ev]).

Definition getSessionData : M SessionData.t := fun s => (OK s, s, [StoreGet]).

Definition setSessionData (sd : SessionData.t) : M unit :=
  fun _ => (OK tt, sd, [StoreSet sd]).

(** A collaborator's outcome outside any [try]: a throw propagates. *)
Definition lift {A} (o : outcome A) : M A :=
  match o with
  | Returns a => ret a
  | Throws e => throw (Thrown e)
  end.

Definition liftResult {A} (r : result A) : M A :=
  match r with
  | OK a => ret a
  | Error e => throw e
  end.

(** The store writes among a run's calls. *)
Definition writes (evs : list event) : list SessionData.t :=
  flat_map (fun ev => match ev with StoreSet sd => [sd] | _ => [] end) evs.

(** The decryption attempts among a run's calls. *)
Definition decryptions (evs : list event) : list (value * value) :=
  flat_map (fun ev => match ev with Decrypt k c => [(k, c)] | _ => [] end) evs.

(** The key-material parses among a run's calls. *)
Definition keyParses (evs : list event) : list value :=
  flat_map (fun ev => match ev with ParseKey h => [h] | _ => [] end) evs.

(** The decryptions and key parses of a run, in the order they were made. *)
Definition keyAttempts (evs : list event) : list event :=
  filter (fun ev => match ev with Decrypt _ _ | ParseKey _ => true | _ => false end) evs.


(** The three components of a run. *)
Definition rresult {A} (run : result A * SessionData.t * list event) : result A :=
  fst (fst run).

Definition rsession {A} (run : result A * SessionData.t * list event) : SessionData.t :=
  snd (fst run).

Definition rtrace {A} (run : result A * SessionData.t * list event) : list event :=
  snd run.

(** A [.then] step of a promise chain that touches neither the store nor
    any traced collaborator. *)
Definition andThen {A B} (r : result A) (f : A -> result B) : result B :=
  match r with
  | OK a => f a
  | Error e => Error e
  end.

Definition ofOutcome {A} (o : outcome A) : result A :=
  match o with
  | Returns a => OK a
  | Throws e => Error (Thrown e)
  end.

(** ** The program *)

Section AuthApp.

Variable E : Collaborators.

(** Lines 115-122: the name lookup endpoint handed to the verifier. *)
Definition nameLookupURL (sd : SessionData.t) : string :=
  let coreNode :=
    match SessionData.coreNode sd with
    | Some coreNodeSessionValue =>
        if String.eqb coreNodeSessionValue "" then DEFAULT_CORE_NODE E
        else coreNodeSessionValue
    | None => DEFAULT_CORE_NODE E
    end in
  coreNode ++ NAME_LOOKUP_PATH E.

(** Lines 135-147. *)
Definition resolveAppPrivateKey (transitKey : value) (tokenPayload : Payload.t)
  : M value :=
  let private_key := Payload.private_key tokenPayload in
  if negb (nullish private_key) then
    emit (Decrypt transitKey private_key) ;;;
    match decryptPrivateKey E transitKey private_key with
    | Returns decrypted => ret decrypted
    | Throws _ =>
        emit (LogWarn "Failed decryption of appPrivateKey, will try to use as given") ;;;
        emit (ParseKey private_key) ;;;
        match hexStringToECPair E private_key with
        | Returns _ => ret private_key
        | Throws _ =>
            throw (LoginFailedError ("Failed decrypting appPrivateKey. Usually means"
                                     ++ " that the transit key has changed during login."))
        end
    end
  else ret private_key.

(** Lines 148-154. *)
Definition resolveCoreSessionToken (transitKey : value) (tokenPayload : Payload.t)
  : M value :=
  let coreSessionToken := Payload.core_token tokenPayload in
  if negb (nullish coreSessionToken) then
    emit (Decrypt transitKey coreSessionToken) ;;;
    match decryptPrivateKey E transitKey coreSessionToken with
    | Returns decrypted => ret decrypted
    | Throws _ =>
        emit (LogInfo "Failed decryption of coreSessionToken, will try to use as given") ;;;
        ret coreSessionToken
    end
  else ret coreSessionToken.

(** Lines 131-159: the version gate. *)
Definition resolveKeys (transitKey : value) (tokenPayload : Payload.t)
  : M (value * value) :=
  if isLaterVersion E (Payload.version tokenPayload) "1.1.0" then
    if negb (nullish transitKey) then
      appPrivateKey <- resolveAppPrivateKey transitKey tokenPayload ;;
      coreSessionToken <- resolveCoreSessionToken transitKey tokenPayload ;;
      ret (appPrivateKey, coreSessionToken)
    else
      throw (LoginFailedError ("Authenticating with protocol > 1.1.0 requires transit"
                               ++ " key, and none found."))
  else ret (Payload.private_key tokenPayload, Payload.core_token tokenPayload).

(** Lines 160-164. *)
Definition selectHubUrl (tokenPayload : Payload.t) : value :=
  if isLaterVersion E (Payload.version tokenPayload) "1.2.0"
     && negb (nullish (Payload.hubUrl tokenPayload))
  then Payload.hubUrl tokenPayload
  else VStr (BLOCKSTACK_DEFAULT_GAIA_HUB_URL E).

(** [sessionData = getSessionData(); sessionData.userData = userData;
    setSessionData(sessionData); return userData], as each of the three
    branches of lines 182-206 ends. *)
Definition commitUserData (userData : UserData.t) : M UserData.t :=
  sessionData <- getSessionData ;;
  setSessionData (SessionData.set_userData sessionData userData) ;;;
  ret userData.

(** Lines 189-191: the profile carried by a successful response. *)
Definition fetchedProfile (response : Response) : result value :=
  andThen (ofOutcome (text response)) (fun responseText =>
  andThen (ofOutcome (JSON_parse E responseText)) (fun wrappedProfile =>
  andThen (index0 wrappedProfile) (fun first =>
  andThen (dot_token first) (fun token =>
  ofOutcome (extractProfile E token))))).

(** Lines 176-207. *)
Definition resolveProfileAndCommit (tokenPayload : Payload.t) (userData : UserData.t)
  : M UserData.t :=
  let profileURL := Payload.profile_url tokenPayload in
  if nullish (UserData.profile userData) && negb (nullish profileURL) then
    emit (Fetch profileURL) ;;;
    response <- lift (fetch E profileURL) ;;
    if negb (ok response) then
      commitUserData (UserData.set_profile userData DEFAULT_PROFILE)
    else
      profile <- liftResult (fetchedProfile response) ;;
      commitUserData (UserData.set_profile userData profile)
  else
    commitUserData (UserData.set_profile userData (Payload.profile tokenPayload)).

(** Lines 166-175. *)
Definition assemble (authResponseToken : string) (tokenPayload : Payload.t)
  (keys : value * value) (identityAddress : value) : UserData.t :=
  UserData.mk (Payload.username tokenPayload)
              (Payload.profile tokenPayload)
              (Payload.iss tokenPayload)
              identityAddress
              (fst keys)
              (snd keys)
              authResponseToken
              (selectHubUrl tokenPayload).

(** Lines 111-209. *)
Definition handlePendingSignInImpl (authResponseToken : string) : M UserData.t :=
  sd <- getSessionData ;;
  let transitKey := SessionData.transitKey sd in
  sd' <- getSessionData ;;
  let url := nameLookupURL sd' in
  emit (Verify authResponseToken url) ;;;
  isValid <- lift (verifyAuthResponse E authResponseToken url) ;;
  if negb isValid then
    throw (LoginFailedError "Invalid authentication response.")
  else
    tokenPayload <- lift (decodeToken E authResponseToken) ;;
    keys <- resolveKeys transitKey tokenPayload ;;
    identityAddress <- lift (getAddressFromDID E (Payload.iss tokenPayload)) ;;
    resolveProfileAndCommit tokenPayload
      (assemble authResponseToken tokenPayload keys identityAddress).

(** Lines 218-224. *)
Definition loadUserDataImpl : M UserData.t :=
  sd <- getSessionData ;;
  match SessionData.userData sd with
  | None => throw (InvalidStateError "No user data found. Did the user sign in?")
  | Some userData => ret userData
  end.

(** ** Derived descriptions *)

(** The calls every run starts with. *)
Definition prelude (authResponseToken : string) (sd : SessionData.t) : list event :=
  [StoreGet; StoreGet; Verify authResponseToken (nameLookupURL sd)].

(** The profile lines 176-207 settle on, the store left aside. *)
Definition resolvedProfile (tokenPayload : Payload.t) : result value :=
  if nullish (Payload.profile tokenPayload)
     && negb (nullish (Payload.profile_url tokenPayload))
  then
    match fetch E (Payload.profile_url tokenPayload) with
    | Throws e => Error (Thrown e)
    | Returns response =>
        if negb (ok response) then OK DEFAULT_PROFILE else fetchedProfile response
    end
  else OK (Payload.profile tokenPayload).

(** The calls lines 176-181 make before the profile is settled. *)
Definition profileCalls (tokenPayload : Payload.t) : list event :=
  if nullish (Payload.profile tokenPayload)
     && negb (nullish (Payload.profile_url tokenPayload))
  then [Fetch (Payload.profile_url tokenPayload)]
  else [].

End AuthApp.

(** ** A version comparison and sample collaborators *)

(** The dot-separated fields of a version string. *)
Fixpoint versionFields (s cur : string) : list string :=
  match s with
  | EmptyString => [cur]
  | String c rest =>
      if Ascii.eqb c "."%char then cur :: versionFields rest ""
      else versionFields rest (cur ++ String c "")
  end.

(** A field read as a decimal number. *)
Fixpoint numberOf (s : string) (acc : nat) : nat :=
  match s with
  | EmptyString => acc
  | String c rest => numberOf rest (10 * acc + (nat_of_ascii c - 48))
  end.

Definition versionTuple (s : string) : list nat :=
  map (fun f => numberOf f 0) (versionFields s "").

(** Strictly greater, field by field, a missing field counting as 0. *)
Fixpoint laterTuple (a b : list nat) : bool :=
  match a, b with
  | x :: a', y :: b' =>
      if Nat.ltb y x then true
      else if Nat.ltb x y then false
      else laterTuple a' b'
  | x :: a', [] => Nat.ltb 0 x || laterTuple a' []
  | [], _ => false
  end.

(** Modelled from the spec: [isLaterVersion] of [src/utils], which is not
    among the sources at hand.  The spec asks for a total-order comparison
    over semantic version triples that treats an absent version as the
    lowest possible one.  It serves the sample collaborators below; the
    theorems hold for any [isLaterVersion]. *)
Definition semverLater (v : value) (reference : string) : bool :=
  match v with
  | VStr s => laterTuple (versionTuple s) (versionTuple reference)
  | _ => false
  end.

Definition quoted (s : string) : string :=
  String "034"%char (s ++ String "034"%char "").

(** Three response bodies: an array with one wrapped profile, an empty
    array, and an object whose member [0] is a wrapped profile. *)
Definition arrayBody : string :=
  "[{" ++ quoted "token" ++ ":" ++ quoted "profile-token" ++ "}]".

Definition emptyArrayBody : string := "[]".

Definition objectBody : string :=
  "{" ++ quoted "0" ++ ":{" ++ quoted "token" ++ ":" ++ quoted "profile-token" ++ "}}".

Definition wrappedToken : value := VObj [("token", VStr "profile-token")].

(** [JSON.parse] on the three bodies above; every other text used below is
    not JSON. *)
Definition sampleParse (body : string) : outcome value :=
  if String.eqb body arrayBody then Returns (VArr [wrappedToken])
  else if String.eqb body emptyArrayBody then Returns (VArr [])
  else if String.eqb body objectBody then Returns (VObj [("0", wrappedToken)])
  else Throws "SyntaxError: Unexpected token".

Definition sampleProfile : value :=
  VObj [("@type", VStr "Person"); ("name", VStr "Satoshi")].

Definition sampleExtract (token : value) : outcome value :=
  match token with
  | VStr s =>
      if String.eqb s "profile-token" then Returns sampleProfile
      else Throws "Error: invalid token"
  | _ => Throws "Error: invalid token"
  end.

Definition samplePayload (version private_key core_token hubUrl profile profile_url : value)
  : Payload.t :=
  Payload.mk (VStr "alice.id") profile (VStr "did:btc-addr:1Alice")
             private_key core_token version hubUrl profile_url.

(** Collaborators of one scenario: what the verifier answers, the payload
    the token decodes to, how decryption and key parsing behave, and what
    fetching the profile gives.  The three constants of [authConstants] are
    sample values. *)
Definition sample (verified : outcome bool) (payload : Payload.t)
  (decrypt : value -> value -> outcome value) (parseKey : value -> outcome unit)
  (fetched : outcome Response) : Collaborators :=
  {| BLOCKSTACK_DEFAULT_GAIA_HUB_URL := "https://hub.blockstack.org";
     NAME_LOOKUP_PATH := "/v1/names";
     DEFAULT_CORE_NODE := "https://core.blockstack.org";
     verifyAuthResponse := fun _ _ => verified;
     decodeToken := fun _ => Returns payload;
     isLaterVersion := semverLater;
     decryptPrivateKey := decrypt;
     hexStringToECPair := parseKey;
     getAddressFromDID := fun _ => Returns (VStr "1Alice");
     fetch := fun _ => fetched;
     JSON_parse := sampleParse;
     extractProfile := sampleExtract |}.

Definition decryptFails : value -> value -> outcome value :=
  fun _ _ => Throws "Error: Decryption failed".

Definition decryptStrips : value -> value -> outcome value :=
  fun _ c =>
    match c with
    | VStr (String "e" (String "n" (String "c" (String ":" s)))) => Returns (VStr s)
    | _ => Throws "Error: Decryption failed"
    end.

Definition parseFails : value -> outcome unit :=
  fun _ => Throws "Error: Expected hex string".

Definition parseSucceeds : value -> outcome unit :=
  fun _ => Returns tt.

Definition freshSession : SessionData.t :=
  SessionData.mk (VStr "transit-key") None None.

Definition keylessSession : SessionData.t :=
  SessionData.mk VUndefined (Some "https://node.example") None.

(** ** Response bodies

    A body that is a JSON array whose first element carries a token that
    [extractProfile] accepts. *)
Definition usableArrayBody (E : Collaborators) (response : Response) : Prop :=
  exists body first rest token profile,
    text response = Returns body /\
    JSON_parse E body = Returns (VArr (first :: rest)) /\
    dot_token first = OK token /\
    extractProfile E token = Returns profile.

(** A body that parses to a value whose member [0], array element or not,
    carries a token that [extractProfile] accepts. *)
Definition usableBody (E : Collaborators) (response : Response) : Prop :=
  exists body wrappedProfile first token profile,
    text response = Returns body /\
    JSON_parse E body = Returns wrappedProfile /\
    index0 wrappedProfile = OK first /\
    dot_token first = OK token /\
    extractProfile E token = Returns profile.

(** The message of the [LoginFailedError] of lines 143-144, concatenated. *)
Definition failedDecryptingMessage : string :=
  "Failed decrypting appPrivateKey. Usually means that the transit key has changed during login.".

(** ** More views of a trace *)

(** The verifier calls among a run's calls. *)
Definition verifications (evs : list event) : list (string * string) :=
  flat_map (fun ev => match ev with Verify t u => [(t, u)] | _ => [] end) evs.

(** The profile fetches among a run's calls. *)
Definition fetches (evs : list event) : list value :=
  flat_map (fun ev => match ev with Fetch u => [u] | _ => [] end) evs.

(** ** The redirect to the authenticator (lines 41-98) *)

(** ASCII letters folded to lower case, as the [i] flag of the regular
    expression of line 53 compares them; no other character is changed. *)
Definition asciiLower (c : ascii) : ascii :=
  let n := nat_of_ascii c in
  if Nat.leb 65 n && Nat.leb n 90 then ascii_of_nat (n + 32) else c.

Fixpoint lowerCase (s : string) : string :=
  match s with
  | EmptyString => EmptyString
  | String c rest => String (asciiLower c) (lowerCase rest)
  end.

Fixpoint hasPrefix (p s : string) : bool :=
  match p, s with
  | EmptyString, _ => true
  | String a p', String b s' => Ascii.eqb a b && hasPrefix p' s'
  | String _ _, EmptyString => false
  end.

(** [p] occurs somewhere in [s]. *)
Fixpoint occursIn (p s : string) : bool :=
  match s with
  | EmptyString => hasPrefix p EmptyString
  | String _ rest => hasPrefix p s || occursIn p rest
  end.

(** The alternatives of [/Android|webOS|iPhone|iPad|iPod|Opera Mini/i]. *)
Definition mobileNames : list string :=
  ["Android"; "webOS"; "iPhone"; "iPad"; "iPod"; "Opera Mini"].

(** Line 53: [/Android|webOS|iPhone|iPad|iPod|Opera Mini/i.test(userAgent)]. *)
Definition isMobile (userAgent : string) : bool :=
  existsb (fun name => occursIn (lowerCase name) (lowerCase userAgent)) mobileNames.

(** What the redirect does to the outside: log lines, assignments to
    [window.location], the call of [protocolCheck], and the two calls on the
    caller made by [redirectToSignInImpl]. *)
Inductive browserEvent : Type :=
| Info (msg : string)
| Warn (msg : string)
| Navigate (uri : string)
| ProtocolCheck (uri : string)
| GenerateAndStoreTransitKey
| MakeAuthRequest (transitKey : string).

(** The three callbacks handed to [protocolCheck]. *)
Inductive callback : Type :=
| FailCallback
| SuccessCallback
| UnsupportedBrowserCallback.

Record AppConfig : Type := mkAppConfig {
  authenticatorURL : option string
}.

(** The caller as the redirect uses it: its [appConfig], and its two
    methods, which are defined outside this file. *)
Record UserSession : Type := mkUserSession {
  appConfig : option AppConfig;
  generateAndStoreTransitKey : SessionData.t -> string * SessionData.t;
  makeAuthRequest : string -> string
}.

(** The browser and the imports of the redirect.  [protocolCheck] is known
    here by the callbacks it invokes, in the order it invokes them. *)
Record Browser : Type := mkBrowser {
  BLOCKSTACK_HANDLER : string;
  DEFAULT_BLOCKSTACK_HOST : string;
  userAgent : string;
  protocolCheck : string -> list callback
}.

(** Lines 45-50. *)
Definition httpsURI (W : Browser) (caller : UserSession) (authRequest : string) : string :=
  let httpsURI := DEFAULT_BLOCKSTACK_HOST W ++ "?authRequest=" ++ authRequest in
  match appConfig caller with
  | Some config =>
      match authenticatorURL config with
      | Some url =>
          if String.eqb url "" then httpsURI
          else url ++ "?authRequest=" ++ authRequest
      | None => httpsURI
      end
  | None => httpsURI
  end.

(** Line 43. *)
Definition protocolURI (W : Browser) (authRequest : string) : string :=
  BLOCKSTACK_HANDLER W ++ ":" ++ authRequest.

(** Lines 59-62. *)
Definition successCallback : list browserEvent :=
  [Info "protocol handler detected"].

(** Lines 64-67. *)
Definition failCallback (httpsURI : string) : list browserEvent :=
  [Warn "protocol handler not detected"; Navigate httpsURI].

(** Lines 69-73. *)
Definition unsupportedBrowserCallback (protocolURI : string) : list browserEvent :=
  [Warn "can not detect custom protocols on this browser"; Navigate protocolURI].

Definition runCallback (httpsURI protocolURI : string) (cb : callback)
  : list browserEvent :=
  match cb with
  | FailCallback => failCallback httpsURI
  | SuccessCallback => successCallback
  | UnsupportedBrowserCallback => unsupportedBrowserCallback protocolURI
  end.

(** Lines 41-76. *)
Definition redirectToSignInWithAuthRequestImpl (W : Browser) (caller : UserSession)
  (authRequest : string) : list browserEvent :=
  let protocolURI := protocolURI W authRequest in
  let httpsURI := httpsURI W caller authRequest in
  if isMobile (userAgent W) then
    [Info "detected mobile OS, sending to https"; Navigate httpsURI]
  else
    ProtocolCheck protocolURI
      :: flat_map (runCallback httpsURI protocolURI) (protocolCheck W protocolURI).

(** Lines 94-98. *)
Definition redirectToSignInImpl (W : Browser) (caller : UserSession)
  (sd : SessionData.t) : SessionData.t * list browserEvent :=
  let (transitKey, sd') := generateAndStoreTransitKey caller sd in
  let authRequest := makeAuthRequest caller transitKey in
  (sd',
   GenerateAndStoreTransitKey :: MakeAuthRequest transitKey
     :: redirectToSignInWithAuthRequestImpl W caller authRequest).

(** The assignments to [window.location], in order. *)
Definition navigations (evs : list browserEvent) : list string :=
  flat_map (fun ev => match ev with Navigate u => [u] | _ => [] end) evs.

(** The calls of [protocolCheck], in order. *)
Definition protocolChecks (evs : list browserEvent) : list string :=
  flat_map (fun ev => match ev with ProtocolCheck u => [u] | _ => [] end) evs.

(** Sample browsers and callers. *)
Definition sampleBrowser (ua : string) (detects : list callback) : Browser :=
  {| BLOCKSTACK_HANDLER := "blockstack";
     DEFAULT_BLOCKSTACK_HOST := "https://browser.blockstack.org/auth";
     userAgent := ua;
     protocolCheck := fun _ => detects |}.

Definition sampleCaller (config : option AppConfig) : UserSession :=
  {| appConfig := config;
     generateAndStoreTransitKey := fun sd =>
       ("fresh-transit-key",
        SessionData.mk (VStr "fresh-transit-key") (SessionData.coreNode sd)
                       (SessionData.userData sd));
     makeAuthRequest := fun key => "request-for-" ++ key |}.

Definition iPhoneAgent : string :=
  "Mozilla/5.0 (iPhone; CPU iPhone OS 12_0 like Mac OS X) AppleWebKit/605.1.15".

Definition desktopAgent : string :=
  "Mozilla/5.0 (X11; Linux x86_64; rv:62.0) Gecko/20100101 Firefox/62.0".

(** ** Properties *)

Example semver_1_3_0 : semverLater (VStr "1.3.0") "1.2.0" = true.
Proof. reflexivity. Qed.
Example semver_1_1_0 : semverLater (VStr "1.1.0") "1.1.0" = false.
Proof. reflexivity. Qed.
Example semver_1_10 : semverLater (VStr "1.10.0") "1.2.0" = true.
Proof. reflexivity. Qed.
Example semver_absent : semverLater VUndefined "1.1.0" = false.
Proof. reflexivity. Qed.

(** ** Equations of the stages *)

Section Stages.

Variable E : Collaborators.

Lemma writes_app (a b : list event) : writes (a ++ b) = (writes a ++ writes b)%list.
Proof. unfold writes. apply flat_map_app. Qed.

Lemma decryptions_app (a b : list event) :
  decryptions (a ++ b) = (decryptions a ++ decryptions b)%list.
Proof. unfold decryptions. apply flat_map_app. Qed.

Lemma keyParses_app (a b : list event) :
  keyParses (a ++ b) = (keyParses a ++ keyParses b)%list.
Proof. unfold keyParses. apply flat_map_app. Qed.

Lemma keyAttempts_app (a b : list event) :
  keyAttempts (a ++ b) = (keyAttempts a ++ keyAttempts b)%list.
Proof. unfold keyAttempts. apply filter_app. Qed.

Ltac run_monad :=
  unfold bind, lift, liftResult, emit, getSessionData, setSessionData, ret, throw.

(** The private key step, case by case. *)
Lemma resolveAppPrivateKey_absent tk p s :
  nullish (Payload.private_key p) = true ->
  resolveAppPrivateKey E tk p s = (OK (Payload.private_key p), s, []).
Proof. intros H. unfold resolveAppPrivateKey. rewrite H. reflexivity. Qed.

Lemma resolveAppPrivateKey_decrypted tk p s d :
  nullish (Payload.private_key p) = false ->
  decryptPrivateKey E tk (Payload.private_key p) = Returns d ->
  resolveAppPrivateKey E tk p s = (OK d, s, [Decrypt tk (Payload.private_key p)]).
Proof.
  intros H Hd. unfold resolveAppPrivateKey. rewrite H. run_monad. simpl.
  rewrite Hd. reflexivity.
Qed.

Lemma resolveAppPrivateKey_as_given tk p s e k :
  nullish (Payload.private_key p) = false ->
  decryptPrivateKey E tk (Payload.private_key p) = Throws e ->
  hexStringToECPair E (Payload.private_key p) = Returns k ->
  resolveAppPrivateKey E tk p s =
    (OK (Payload.private_key p), s,
     [Decrypt tk (Payload.private_key p);
      LogWarn "Failed decryption of appPrivateKey, will try to use as given";
      ParseKey (Payload.private_key p)]).
Proof.
  intros H Hd Hk. unfold resolveAppPrivateKey. rewrite H. run_monad. simpl.
  rewrite Hd, Hk. reflexivity.
Qed.

Lemma resolveAppPrivateKey_failed tk p s e e' :
  nullish (Payload.private_key p) = false ->
  decryptPrivateKey E tk (Payload.private_key p) = Throws e ->
  hexStringToECPair E (Payload.private_key p) = Throws e' ->
  resolveAppPrivateKey E tk p s =
    (Error (LoginFailedError
       "Failed decrypting appPrivateKey. Usually means that the transit key has changed during login."),
     s,
     [Decrypt tk (Payload.private_key p);
      LogWarn "Failed decryption of appPrivateKey, will try to use as given";
      ParseKey (Payload.private_key p)]).
Proof.
  intros H Hd Hk. unfold resolveAppPrivateKey. rewrite H. run_monad. simpl.
  rewrite Hd, Hk. reflexivity.
Qed.

(** The core token step, case by case: it never fails. *)
Lemma resolveCoreSessionToken_absent tk p s :
  nullish (Payload.core_token p) = true ->
  resolveCoreSessionToken E tk p s = (OK (Payload.core_token p), s, []).
Proof. intros H. unfold resolveCoreSessionToken. rewrite H. reflexivity. Qed.

Lemma resolveCoreSessionToken_decrypted tk p s d :
  nullish (Payload.core_token p) = false ->
  decryptPrivateKey E tk (Payload.core_token p) = Returns d ->
  resolveCoreSessionToken E tk p s = (OK d, s, [Decrypt tk (Payload.core_token p)]).
Proof.
  intros H Hd. unfold resolveCoreSessionToken. rewrite H. run_monad. simpl.
  rewrite Hd. reflexivity.
Qed.

Lemma resolveCoreSessionToken_as_given tk p s e :
  nullish (Payload.core_token p) = false ->
  decryptPrivateKey E tk (Payload.core_token p) = Throws e ->
  resolveCoreSessionToken E tk p s =
    (OK (Payload.core_token p), s,
     [Decrypt tk (Payload.core_token p);
      LogInfo "Failed decryption of coreSessionToken, will try to use as given"]).
Proof.
  intros H Hd. unfold resolveCoreSessionToken. rewrite H. run_monad. simpl.
  rewrite Hd. reflexivity.
Qed.

End Stages.

(** ** The run as one equation *)

Section Run.

Variable E : Collaborators.

Ltac run_monad :=
  unfold bind, lift, liftResult, emit, getSessionData, setSessionData, ret, throw.

(** The key stage never touches the store, whatever it answers. *)
Lemma resolveKeys_session tk p s :
  rsession (resolveKeys E tk p s) = s /\ writes (rtrace (resolveKeys E tk p s)) = [].
Proof.
  unfold resolveKeys, resolveAppPrivateKey, resolveCoreSessionToken. run_monad.
  destruct (isLaterVersion E (Payload.version p) "1.1.0"); [| split; reflexivity].
  destruct (nullish tk); simpl; [split; reflexivity |].
  destruct (nullish (Payload.private_key p)); simpl;
    destruct (nullish (Payload.core_token p)); simpl;
    repeat match goal with
           | |- context [match ?x with Returns _ => _ | Throws _ => _ end] =>
               destruct x; simpl
           end;
    split; reflexivity.
Qed.

(** The only calls of the key stage are decryptions, key parses and log
    lines. *)
Lemma resolveKeys_calls tk p s ev :
  In ev (rtrace (resolveKeys E tk p s)) ->
  match ev with
  | Decrypt _ _ | ParseKey _ | LogWarn _ | LogInfo _ => True
  | _ => False
  end.
Proof.
  unfold resolveKeys, resolveAppPrivateKey, resolveCoreSessionToken. run_monad.
  destruct (isLaterVersion E (Payload.version p) "1.1.0"); [| intros []].
  destruct (nullish tk); simpl; [intros [] |].
  destruct (nullish (Payload.private_key p)); simpl;
    destruct (nullish (Payload.core_token p)); simpl;
    repeat match goal with
           | |- context [match ?x with Returns _ => _ | Throws _ => _ end] =>
               destruct x; simpl
           end;
    intros H; repeat (destruct H as [<- | H]; [exact I |]); destruct H.
Qed.

(** The key stage fails with [LoginFailedError] or not at all. *)
Lemma resolveKeys_error tk p s e :
  rresult (resolveKeys E tk p s) = Error e -> isLoginFailedError e = true.
Proof.
  unfold resolveKeys, resolveAppPrivateKey, resolveCoreSessionToken. run_monad.
  destruct (isLaterVersion E (Payload.version p) "1.1.0"); [| discriminate].
  destruct (nullish tk); simpl; [intros [= <-]; reflexivity |].
  destruct (nullish (Payload.private_key p)); simpl;
    destruct (nullish (Payload.core_token p)); simpl;
    repeat match goal with
           | |- context [match ?x with Returns _ => _ | Throws _ => _ end] =>
               destruct x; simpl
           end;
    intros H; try discriminate; injection H as <-; reflexivity.
Qed.

(** Profile resolution and commit: the store is written once, last, and
    only when a profile was settled. *)
Lemma resolveProfileAndCommit_spec p u s :
  UserData.profile u = Payload.profile p ->
  resolveProfileAndCommit E p u s =
    match resolvedProfile E p with
    | OK profile =>
        let u' := UserData.set_profile u profile in
        (OK u', SessionData.set_userData s u',
         (profileCalls p ++ [StoreGet; StoreSet (SessionData.set_userData s u')])%list)
    | Error e => (Error e, s, profileCalls p)
    end.
Proof.
  intros Hu. unfold resolveProfileAndCommit, resolvedProfile, profileCalls, commitUserData.
  rewrite Hu.
  destruct (nullish (Payload.profile p) && negb (nullish (Payload.profile_url p)));
    [| reflexivity].
  run_monad. simpl.
  destruct (fetch E (Payload.profile_url p)) as [response | e]; [| reflexivity].
  destruct (ok response); simpl; [| reflexivity].
  destruct (fetchedProfile E response); reflexivity.
Qed.

(** The whole of [handlePendingSignInImpl], stage by stage. *)
Lemma run_spec tok sd :
  handlePendingSignInImpl E tok sd =
    match verifyAuthResponse E tok (nameLookupURL E sd) with
    | Throws e => (Error (Thrown e), sd, prelude E tok sd)
    | Returns false =>
        (Error (LoginFailedError "Invalid authentication response."), sd, prelude E tok sd)
    | Returns true =>
        match decodeToken E tok with
        | Throws e => (Error (Thrown e), sd, prelude E tok sd)
        | Returns p =>
            let keyRun := resolveKeys E (SessionData.transitKey sd) p sd in
            match rresult keyRun with
            | Error e => (Error e, sd, (prelude E tok sd ++ rtrace keyRun)%list)
            | OK keys =>
                match getAddressFromDID E (Payload.iss p) with
                | Throws e => (Error (Thrown e), sd, (prelude E tok sd ++ rtrace keyRun)%list)
                | Returns address =>
                    match resolvedProfile E p with
                    | Error e =>
                        (Error e, sd,
                         (prelude E tok sd ++ rtrace keyRun ++ profileCalls p)%list)
                    | OK profile =>
                        let u := UserData.set_profile (assemble E tok p keys address) profile in
                        (OK u, SessionData.set_userData sd u,
                         (prelude E tok sd ++ rtrace keyRun ++ profileCalls p
                          ++ [StoreGet; StoreSet (SessionData.set_userData sd u)])%list)
                    end
                end
            end
        end
    end.
Proof.
  unfold handlePendingSignInImpl, prelude.
  unfold bind at 1 2 3 4. unfold getSessionData at 1 2. unfold emit at 1. cbv zeta.
  destruct (verifyAuthResponse E tok (nameLookupURL E sd)) as [[|] | e]; simpl;
    try reflexivity.
  unfold bind at 1.
  destruct (decodeToken E tok) as [p | e]; simpl; [| reflexivity].
  unfold bind at 1.
  pose proof (resolveKeys_session (SessionData.transitKey sd) p sd) as [Hs _].
  destruct (resolveKeys E (SessionData.transitKey sd) p sd) as [[r s1] t1].
  unfold rsession, rresult, rtrace in *. simpl in *. subst s1.
  destruct r as [keys | e]; [| reflexivity].
  unfold bind at 1.
  destruct (getAddressFromDID E (Payload.iss p)) as [address | e]; simpl.
  - rewrite resolveProfileAndCommit_spec by reflexivity.
    destruct (resolvedProfile E p); simpl; rewrite ?app_nil_r; reflexivity.
  - rewrite app_nil_r. reflexivity.
Qed.

End Run.

(** ** Consequences of the run equation *)

Section RunFacts.

Variable E : Collaborators.

Lemma writes_profileCalls p : writes (profileCalls p) = [].
Proof. unfold profileCalls. destruct (_ && _); reflexivity. Qed.

(** A run that resolves passed every stage, wrote the store once, last,
    and resolved with what it wrote. *)
Lemma run_committed tok sd u :
  rresult (handlePendingSignInImpl E tok sd) = OK u ->
  exists p keys address profile,
    verifyAuthResponse E tok (nameLookupURL E sd) = Returns true /\
    decodeToken E tok = Returns p /\
    rresult (resolveKeys E (SessionData.transitKey sd) p sd) = OK keys /\
    getAddressFromDID E (Payload.iss p) = Returns address /\
    resolvedProfile E p = OK profile /\
    u = UserData.set_profile (assemble E tok p keys address) profile /\
    rsession (handlePendingSignInImpl E tok sd) = SessionData.set_userData sd u /\
    rtrace (handlePendingSignInImpl E tok sd) =
      (prelude E tok sd ++ rtrace (resolveKeys E (SessionData.transitKey sd) p sd)
       ++ profileCalls p ++ [StoreGet; StoreSet (SessionData.set_userData sd u)])%list.
Proof.
  rewrite run_spec.
  destruct (verifyAuthResponse E tok (nameLookupURL E sd)) as [[|] | e] eqn:Hv;
    try discriminate.
  destruct (decodeToken E tok) as [p | e] eqn:Hd; try discriminate.
  cbv zeta.
  destruct (rresult (resolveKeys E (SessionData.transitKey sd) p sd)) as [keys | e] eqn:Hk;
    try discriminate.
  destruct (getAddressFromDID E (Payload.iss p)) as [address | e] eqn:Ha; try discriminate.
  destruct (resolvedProfile E p) as [profile | e] eqn:Hp; try discriminate.
  intros H. cbv beta iota delta [rresult fst] in H. injection H as <-.
  exists p, keys, address, profile. repeat split; try reflexivity; assumption.
Qed.

(** A run that passes every stage resolves. *)
Lemma run_resolves tok sd p keys address profile :
  verifyAuthResponse E tok (nameLookupURL E sd) = Returns true ->
  decodeToken E tok = Returns p ->
  rresult (resolveKeys E (SessionData.transitKey sd) p sd) = OK keys ->
  getAddressFromDID E (Payload.iss p) = Returns address ->
  resolvedProfile E p = OK profile ->
  rresult (handlePendingSignInImpl E tok sd) =
    OK (UserData.set_profile (assemble E tok p keys address) profile).
Proof.
  intros Hv Hd Hk Ha Hp. rewrite run_spec, Hv, Hd. cbv zeta. rewrite Hk, Ha, Hp.
  reflexivity.
Qed.

(** A run that rejects leaves the store as it found it. *)
Lemma run_rejected tok sd e :
  rresult (handlePendingSignInImpl E tok sd) = Error e ->
  rsession (handlePendingSignInImpl E tok sd) = sd /\
  writes (rtrace (handlePendingSignInImpl E tok sd)) = [].
Proof.
  rewrite run_spec.
  destruct (verifyAuthResponse E tok (nameLookupURL E sd)) as [[|] | e0];
    try (intros _; split; reflexivity).
  destruct (decodeToken E tok) as [p | e0]; try (intros _; split; reflexivity).
  cbv zeta.
  pose proof (resolveKeys_session E (SessionData.transitKey sd) p sd) as [_ Hw].
  set (k := rtrace (resolveKeys E (SessionData.transitKey sd) p sd)) in *.
  destruct (rresult (resolveKeys E (SessionData.transitKey sd) p sd)) as [keys | e0];
    [destruct (getAddressFromDID E (Payload.iss p)) as [address | e0];
       [destruct (resolvedProfile E p) as [profile | e0]; [discriminate |] |] |];
    intros _; (split; [reflexivity |]); unfold rtrace, snd;
    rewrite ?writes_app, Hw, ?writes_profileCalls; reflexivity.
Qed.

(** The calls of a verified, decoded run: the prelude, the key stage, and
    after it only the fetch and the store. *)
Lemma run_trace tok sd p :
  verifyAuthResponse E tok (nameLookupURL E sd) = Returns true ->
  decodeToken E tok = Returns p ->
  exists tail,
    rtrace (handlePendingSignInImpl E tok sd) =
      (prelude E tok sd ++ rtrace (resolveKeys E (SessionData.transitKey sd) p sd)
       ++ tail)%list /\
    keyAttempts tail = [] /\ decryptions tail = [] /\ keyParses tail = [].
Proof.
  intros Hv Hd. rewrite run_spec, Hv, Hd. cbv zeta.
  destruct (rresult (resolveKeys E (SessionData.transitKey sd) p sd)) as [keys | e].
  - destruct (getAddressFromDID E (Payload.iss p)) as [address | e].
    + destruct (resolvedProfile E p) as [profile | e]; eexists; (split; [reflexivity |]);
        unfold profileCalls; destruct (_ && _); repeat split; reflexivity.
    + exists []. rewrite app_nil_r. repeat split; reflexivity.
  - exists []. rewrite app_nil_r. repeat split; reflexivity.
Qed.

(** Every run starts with the two store reads and the verifier call. *)
Lemma run_prelude tok sd :
  exists rest, rtrace (handlePendingSignInImpl E tok sd) = (prelude E tok sd ++ rest)%list.
Proof.
  rewrite run_spec.
  destruct (verifyAuthResponse E tok (nameLookupURL E sd)) as [[|] | e];
    try (exists []; rewrite app_nil_r; reflexivity).
  destruct (decodeToken E tok) as [p | e];
    try (exists []; rewrite app_nil_r; reflexivity).
  cbv zeta.
  destruct (rresult (resolveKeys E (SessionData.transitKey sd) p sd)) as [keys | e];
    [destruct (getAddressFromDID E (Payload.iss p)) as [address | e];
       [destruct (resolvedProfile E p) as [profile | e] |] |];
    eexists; reflexivity.
Qed.

(** With the version gate closed the key stage hands both values on and
    calls nothing. *)
Lemma resolveKeys_legacy tk p s :
  isLaterVersion E (Payload.version p) "1.1.0" = false ->
  resolveKeys E tk p s = (OK (Payload.private_key p, Payload.core_token p), s, []).
Proof. intros H. unfold resolveKeys. rewrite H. reflexivity. Qed.

(** With the gate open and no transit key the key stage fails at once. *)
Lemma resolveKeys_no_transit_key tk p s :
  isLaterVersion E (Payload.version p) "1.1.0" = true ->
  nullish tk = true ->
  resolveKeys E tk p s =
    (Error (LoginFailedError
       "Authenticating with protocol > 1.1.0 requires transit key, and none found."),
     s, []).
Proof. intros H Htk. unfold resolveKeys. rewrite H, Htk. reflexivity. Qed.

End RunFacts.

(** ** Verification failure *)

(** C1: when the verifier answers false for the response token, the run
    rejects with [LoginFailedError "Invalid authentication response."], the
    session data is left as found and the store is never written. *)
Theorem invalid_response_rejected (E : Collaborators) (tok : string) (sd : SessionData.t) :
  verifyAuthResponse E tok (nameLookupURL E sd) = Returns false ->
  let run := handlePendingSignInImpl E tok sd in
  rresult run = Error (LoginFailedError "Invalid authentication response.") /\
  rsession run = sd /\
  writes (rtrace run) = [] /\
  rtrace run = [StoreGet; StoreGet; Verify tok (nameLookupURL E sd)].
Proof.
  intros Hv run. subst run. rewrite run_spec, Hv. repeat split; reflexivity.
Qed.

Lemma invalid_response_rejected_witness :
  let E := sample (Returns false)
             (samplePayload (VStr "1.3.0") (VStr "enc:k") (VStr "enc:t") VUndefined
                            sampleProfile VUndefined)
             decryptStrips parseSucceeds (Throws "TypeError: Failed to fetch") in
  let run := handlePendingSignInImpl E "forged.response.token" freshSession in
  rresult run = Error (LoginFailedError "Invalid authentication response.") /\
  rsession run = freshSession /\
  writes (rtrace run) = [] /\
  rtrace run =
    [StoreGet; StoreGet; Verify "forged.response.token" (nameLookupURL E freshSession)].
Proof.
  intros E run.
  apply (invalid_response_rejected E "forged.response.token" freshSession).
  reflexivity.
Defined.

(** ** What a run may do to the session *)

(** C2: a run starts by reading the store twice (for [transitKey] and for
    [coreNode]) and never changes either; a run that rejects
    leaves the session data as found and writes nothing; a run that
    resolves was verified, passed the key stage, and wrote the store exactly
    once, as its last call, setting [userData] to the complete record it
    resolves with. *)
Theorem session_written_only_on_success (E : Collaborators) (tok : string)
  (sd : SessionData.t) :
  let run := handlePendingSignInImpl E tok sd in
  (exists rest, rtrace run = (prelude E tok sd ++ rest)%list) /\
  SessionData.transitKey (rsession run) = SessionData.transitKey sd /\
  SessionData.coreNode (rsession run) = SessionData.coreNode sd /\
  match rresult run with
  | OK u =>
      verifyAuthResponse E tok (nameLookupURL E sd) = Returns true /\
      (exists p keys address profile,
          decodeToken E tok = Returns p /\
          rresult (resolveKeys E (SessionData.transitKey sd) p sd) = OK keys /\
          getAddressFromDID E (Payload.iss p) = Returns address /\
          resolvedProfile E p = OK profile /\
          u = UserData.set_profile (assemble E tok p keys address) profile) /\
      rsession run = SessionData.set_userData sd u /\
      (exists before,
          rtrace run = (before ++ [StoreGet; StoreSet (SessionData.set_userData sd u)])%list /\
          writes before = [])
  | Error _ =>
      rsession run = sd /\ writes (rtrace run) = []
  end.
Proof.
  intros run. subst run. split; [apply run_prelude |].
  destruct (rresult (handlePendingSignInImpl E tok sd)) as [u | e] eqn:Hr.
  - destruct (run_committed E tok sd u Hr)
      as (p & keys & address & profile & Hv & Hd & Hk & Ha & Hp & Hu & Hs & Ht).
    rewrite Hs. repeat split; try reflexivity; try assumption.
    + exists p, keys, address, profile. repeat split; assumption.
    + exists (prelude E tok sd ++ rtrace (resolveKeys E (SessionData.transitKey sd) p sd)
              ++ profileCalls p)%list.
      split.
      * rewrite Ht, <- !app_assoc. reflexivity.
      * rewrite !writes_app, writes_profileCalls.
        destruct (resolveKeys_session E (SessionData.transitKey sd) p sd) as [_ ->].
        reflexivity.
  - destruct (run_rejected E tok sd e Hr) as [Hs Hw].
    rewrite Hs. repeat split; try reflexivity; assumption.
Qed.

(** ** The transit key requirement *)

(** C5: a verified token of a version later than 1.1.0, processed on a
    session that holds no transit key (undefined or null), is rejected with
    the [LoginFailedError] that names the missing transit key, and nothing
    is committed. *)
Theorem missing_transit_key_rejected (E : Collaborators) (tok : string)
  (sd : SessionData.t) (p : Payload.t) :
  verifyAuthResponse E tok (nameLookupURL E sd) = Returns true ->
  decodeToken E tok = Returns p ->
  isLaterVersion E (Payload.version p) "1.1.0" = true ->
  SessionData.transitKey sd = VUndefined \/ SessionData.transitKey sd = VNull ->
  let run := handlePendingSignInImpl E tok sd in
  rresult run =
    Error (LoginFailedError
      "Authenticating with protocol > 1.1.0 requires transit key, and none found.") /\
  rsession run = sd /\
  writes (rtrace run) = [] /\
  decryptions (rtrace run) = [].
Proof.
  intros Hv Hd Hl Htk run. subst run.
  assert (Hn : nullish (SessionData.transitKey sd) = true)
    by (destruct Htk as [-> | ->]; reflexivity).
  rewrite run_spec, Hv, Hd. cbv zeta.
  rewrite (resolveKeys_no_transit_key E _ p sd Hl Hn).
  repeat split; reflexivity.
Qed.

Lemma missing_transit_key_rejected_witness :
  let p := samplePayload (VStr "1.2.0") (VStr "enc:k") (VStr "enc:t") VUndefined
                         sampleProfile VUndefined in
  let E := sample (Returns true) p decryptStrips parseSucceeds
                  (Throws "TypeError: Failed to fetch") in
  let run := handlePendingSignInImpl E "signed.response.token" keylessSession in
  rresult run =
    Error (LoginFailedError
      "Authenticating with protocol > 1.1.0 requires transit key, and none found.") /\
  rsession run = keylessSession /\
  writes (rtrace run) = [] /\
  decryptions (rtrace run) = [].
Proof.
  intros p E run.
  apply (missing_transit_key_rejected E "signed.response.token" keylessSession p).
  - reflexivity.
  - reflexivity.
  - reflexivity.
  - left. reflexivity.
Defined.

(** ** The version gate *)

(** C6: for a verified token whose version is absent or not later than
    1.1.0, whatever the session holds as transit key, the run attempts no
    decryption and no key parse, every user data it commits carries the
    payload's [private_key] and [core_token] as given, and it does commit
    once the address is derived and the profile settled.  An absent version
    is one [isLaterVersion] does not rank above 1.1.0. *)
Theorem legacy_version_passthrough (E : Collaborators) (tok : string)
  (sd : SessionData.t) (p : Payload.t) :
  isLaterVersion E VUndefined "1.1.0" = false ->
  verifyAuthResponse E tok (nameLookupURL E sd) = Returns true ->
  decodeToken E tok = Returns p ->
  Payload.version p = VUndefined \/ isLaterVersion E (Payload.version p) "1.1.0" = false ->
  let run := handlePendingSignInImpl E tok sd in
  decryptions (rtrace run) = [] /\
  keyParses (rtrace run) = [] /\
  (forall u, rresult run = OK u ->
     UserData.appPrivateKey u = Payload.private_key p /\
     UserData.coreSessionToken u = Payload.core_token p /\
     SessionData.userData (rsession run) = Some u) /\
  (forall address profile,
     getAddressFromDID E (Payload.iss p) = Returns address ->
     resolvedProfile E p = OK profile ->
     exists u, rresult run = OK u).
Proof.
  intros Habsent Hv Hd Hver run. subst run.
  assert (Hl : isLaterVersion E (Payload.version p) "1.1.0" = false)
    by (destruct Hver as [-> | H]; assumption).
  pose proof (resolveKeys_legacy E (SessionData.transitKey sd) p sd Hl) as Hk.
  destruct (run_trace E tok sd p Hv Hd) as (tail & Ht & _ & Hdec & Hpar).
  rewrite Hk in Ht. repeat split.
  - rewrite Ht, !decryptions_app, Hdec. reflexivity.
  - rewrite Ht, !keyParses_app, Hpar. reflexivity.
  - destruct (run_committed E tok sd u H)
      as (p' & keys & address & profile & _ & Hd' & Hk' & _ & _ & -> & _ & _).
    rewrite Hd in Hd'. injection Hd' as <-. rewrite Hk in Hk'. injection Hk' as <-.
    reflexivity.
  - destruct (run_committed E tok sd u H)
      as (p' & keys & address & profile & _ & Hd' & Hk' & _ & _ & -> & _ & _).
    rewrite Hd in Hd'. injection Hd' as <-. rewrite Hk in Hk'. injection Hk' as <-.
    reflexivity.
  - destruct (run_committed E tok sd u H) as (_ & _ & _ & _ & _ & _ & _ & _ & _ & _ & -> & _).
    reflexivity.
  - intros address profile Ha Hp. eexists.
    apply (run_resolves E tok sd p (Payload.private_key p, Payload.core_token p)
             address profile Hv Hd); [| assumption | assumption].
    rewrite Hk. reflexivity.
Qed.

Lemma legacy_version_passthrough_witness :
  let p := samplePayload (VStr "1.1.0") (VStr "enc:k") (VStr "enc:t") VUndefined
                         sampleProfile VUndefined in
  let E := sample (Returns true) p decryptStrips parseSucceeds
                  (Throws "TypeError: Failed to fetch") in
  let run := handlePendingSignInImpl E "signed.response.token" freshSession in
  decryptions (rtrace run) = [] /\
  keyParses (rtrace run) = [] /\
  exists u, rresult run = OK u /\
    UserData.appPrivateKey u = VStr "enc:k" /\
    UserData.coreSessionToken u = VStr "enc:t" /\
    SessionData.userData (rsession run) = Some u.
Proof.
  intros p E run.
  destruct (legacy_version_passthrough E "signed.response.token" freshSession p
              eq_refl eq_refl eq_refl (or_intror eq_refl)) as (H1 & H2 & H3 & H4).
  split; [exact H1 |]. split; [exact H2 |].
  destruct (H4 (VStr "1Alice") sampleProfile eq_refl eq_refl) as [u Hu].
  exists u. split; [exact Hu | exact (H3 u Hu)].
Defined.

(** ** Hub URL selection *)

(** C8: every user data committed for a verified token carries the
    payload's [hubUrl] when the version is later than 1.2.0 and the payload's
    [hubUrl] is neither null nor undefined, and the default gateway URL in
    every other case: version not later than 1.2.0, version absent, or
    [hubUrl] null or undefined.  The run does commit once the key stage
    passes, the address is derived and the profile settled. *)
Theorem hub_url_selection (E : Collaborators) (tok : string)
  (sd : SessionData.t) (p : Payload.t) :
  isLaterVersion E VUndefined "1.2.0" = false ->
  verifyAuthResponse E tok (nameLookupURL E sd) = Returns true ->
  decodeToken E tok = Returns p ->
  let run := handlePendingSignInImpl E tok sd in
  (forall u, rresult run = OK u ->
     SessionData.userData (rsession run) = Some u /\
     (isLaterVersion E (Payload.version p) "1.2.0" = true ->
      nullish (Payload.hubUrl p) = false ->
      UserData.hubUrl u = Payload.hubUrl p) /\
     (isLaterVersion E (Payload.version p) "1.2.0" = false \/
      Payload.version p = VUndefined \/
      nullish (Payload.hubUrl p) = true ->
      UserData.hubUrl u = VStr (BLOCKSTACK_DEFAULT_GAIA_HUB_URL E))) /\
  (forall keys address profile,
     rresult (resolveKeys E (SessionData.transitKey sd) p sd) = OK keys ->
     getAddressFromDID E (Payload.iss p) = Returns address ->
     resolvedProfile E p = OK profile ->
     exists u, rresult run = OK u).
Proof.
  intros Habsent Hv Hd run. subst run. split.
  - intros u Hu.
    destruct (run_committed E tok sd u Hu)
      as (p' & keys & address & profile & _ & Hd' & _ & _ & _ & -> & -> & _).
    rewrite Hd in Hd'. injection Hd' as <-.
    split; [reflexivity |]. simpl. unfold selectHubUrl. split.
    + intros -> ->. reflexivity.
    + intros [H | [H | H]].
      * rewrite H. reflexivity.
      * rewrite H, Habsent. reflexivity.
      * rewrite H, andb_false_r. reflexivity.
  - intros keys address profile Hk Ha Hp. eexists.
    apply (run_resolves E tok sd p keys address profile); assumption.
Qed.

Lemma hub_url_selection_witness :
  let p := samplePayload (VStr "1.3.0") (VStr "enc:k") (VStr "enc:t")
                         (VStr "https://custom.hub") sampleProfile VUndefined in
  let E := sample (Returns true) p decryptStrips parseSucceeds
                  (Throws "TypeError: Failed to fetch") in
  let run := handlePendingSignInImpl E "signed.response.token" freshSession in
  exists u, rresult run = OK u /\
    SessionData.userData (rsession run) = Some u /\
    UserData.hubUrl u = VStr "https://custom.hub".
Proof.
  intros p E run.
  destruct (hub_url_selection E "signed.response.token" freshSession p
              eq_refl eq_refl eq_refl) as (H1 & H2).
  destruct (H2 (VStr "k", VStr "t") (VStr "1Alice") sampleProfile
              eq_refl eq_refl eq_refl) as [u Hu].
  exists u. destruct (H1 u Hu) as (Hs & Hhub & _).
  split; [exact Hu |]. split; [exact Hs |]. exact (Hhub eq_refl eq_refl).
Defined.

Example hub_url_1_3_0 :
  let p := samplePayload (VStr "1.3.0") (VStr "enc:k") (VStr "enc:t")
                         (VStr "https://custom.hub") sampleProfile VUndefined in
  let E := sample (Returns true) p decryptStrips parseSucceeds
                  (Throws "TypeError: Failed to fetch") in
  option_map UserData.hubUrl
    (SessionData.userData
       (rsession (handlePendingSignInImpl E "signed.response.token" freshSession)))
  = Some (VStr "https://custom.hub").
Proof. reflexivity. Qed.

Example hub_url_1_0_0 :
  let p := samplePayload (VStr "1.0.0") (VStr "k") (VStr "t")
                         (VStr "https://custom.hub") sampleProfile VUndefined in
  let E := sample (Returns true) p decryptStrips parseSucceeds
                  (Throws "TypeError: Failed to fetch") in
  option_map UserData.hubUrl
    (SessionData.userData
       (rsession (handlePendingSignInImpl E "signed.response.token" freshSession)))
  = Some (VStr "https://hub.blockstack.org").
Proof. reflexivity. Qed.

(** ** The key stage with the gate open *)

Section OpenGate.

Variable E : Collaborators.

(** The private key step leaves the store alone. *)
Lemma resolveAppPrivateKey_shape tk p s :
  exists r t, resolveAppPrivateKey E tk p s = (r, s, t).
Proof.
  unfold resolveAppPrivateKey, bind, emit, ret, throw.
  destruct (negb (nullish (Payload.private_key p))); [| eauto].
  destruct (decryptPrivateKey E tk (Payload.private_key p)); [eauto |].
  destruct (hexStringToECPair E (Payload.private_key p)); eauto.
Qed.

(** The core token step always answers, leaves the store alone and parses
    no key. *)
Lemma resolveCoreSessionToken_shape tk p s :
  exists c t, resolveCoreSessionToken E tk p s = (OK c, s, t) /\ keyParses t = [].
Proof.
  unfold resolveCoreSessionToken, bind, emit, ret.
  destruct (negb (nullish (Payload.core_token p))); [| eauto].
  destruct (decryptPrivateKey E tk (Payload.core_token p)); eauto.
Qed.

(** With the gate open and a transit key, the key stage is the private key
    step followed by the core token step. *)
Lemma resolveKeys_open tk p s :
  isLaterVersion E (Payload.version p) "1.1.0" = true ->
  nullish tk = false ->
  resolveKeys E tk p s =
    match resolveAppPrivateKey E tk p s with
    | (OK a, s1, t1) =>
        match resolveCoreSessionToken E tk p s1 with
        | (OK c, s2, t2) => (OK (a, c), s2, (t1 ++ t2 ++ [])%list)
        | (Error e, s2, t2) => (Error e, s2, (t1 ++ t2)%list)
        end
    | (Error e, s1, t1) => (Error e, s1, t1)
    end.
Proof.
  intros Hl Htk. unfold resolveKeys. rewrite Hl, Htk.
  change (negb false) with true. cbv iota. unfold bind, ret.
  destruct (resolveAppPrivateKey E tk p s) as [[[a | e] s1] t1]; [| reflexivity].
  destruct (resolveCoreSessionToken E tk p s1) as [[[c | e] s2] t2]; reflexivity.
Qed.

(** What is left of a run to fail after the key stage is not a
    [LoginFailedError]. *)
Lemma fetchedProfile_error response e :
  fetchedProfile E response = Error e -> isLoginFailedError e = false.
Proof.
  unfold fetchedProfile, andThen, ofOutcome.
  destruct (text response) as [body | e0]; [| intros [= <-]; reflexivity].
  destruct (JSON_parse E body) as [w | e0]; [| intros [= <-]; reflexivity].
  destruct (index0 w) as [first | e0] eqn:Hi.
  - destruct (dot_token first) as [token | e0] eqn:Ht.
    + destruct (extractProfile E token); [discriminate | intros [= <-]; reflexivity].
    + intros [= <-]. destruct first; try discriminate; injection Ht as <-; reflexivity.
  - intros [= <-]. destruct w as [| | | | [|] | [|] |]; try discriminate;
      injection Hi as <-; reflexivity.
Qed.

Lemma resolvedProfile_error p e :
  resolvedProfile E p = Error e -> isLoginFailedError e = false.
Proof.
  unfold resolvedProfile.
  destruct (_ && _); [| discriminate].
  destruct (fetch E (Payload.profile_url p)) as [response | e0];
    [| intros [= <-]; reflexivity].
  destruct (negb (ok response)); [discriminate |].
  apply fetchedProfile_error.
Qed.

Lemma run_error_after_keys tok sd p keys e :
  verifyAuthResponse E tok (nameLookupURL E sd) = Returns true ->
  decodeToken E tok = Returns p ->
  rresult (resolveKeys E (SessionData.transitKey sd) p sd) = OK keys ->
  rresult (handlePendingSignInImpl E tok sd) = Error e ->
  isLoginFailedError e = false.
Proof.
  intros Hv Hd Hk. rewrite run_spec, Hv, Hd. cbv zeta. rewrite Hk.
  destruct (getAddressFromDID E (Payload.iss p)) as [address | e0].
  - destruct (resolvedProfile E p) as [profile | e0] eqn:Hp; [discriminate |].
    intros H. cbv beta iota delta [rresult fst] in H. injection H as <-.
    exact (resolvedProfile_error p e0 Hp).
  - intros H. cbv beta iota delta [rresult fst] in H. injection H as <-. reflexivity.
Qed.

(** The keys a run commits are those the key stage answered. *)
Lemma committed_keys tok sd p keys t u :
  decodeToken E tok = Returns p ->
  resolveKeys E (SessionData.transitKey sd) p sd = (OK keys, sd, t) ->
  rresult (handlePendingSignInImpl E tok sd) = OK u ->
  UserData.appPrivateKey u = fst keys /\ UserData.coreSessionToken u = snd keys.
Proof.
  intros Hd Hk Hu.
  destruct (run_committed E tok sd u Hu)
    as (p' & keys' & address & profile & _ & Hd' & Hk' & _ & _ & -> & _ & _).
  rewrite Hd in Hd'. injection Hd' as <-. rewrite Hk in Hk'.
  cbv beta iota delta [rresult fst] in Hk'. injection Hk' as <-.
  split; reflexivity.
Qed.

End OpenGate.

(** ** Core session token *)

(** C7: for a verified token of a version later than 1.1.0, with a transit
    key in the session and a [core_token] that is neither null nor undefined,
    a decryption of [core_token] that throws does not fail the run: the core
    token step answers the raw value, every user data the run commits
    carries the raw [core_token], and the run does commit once the private
    key step, the address and the profile succeed. *)
Theorem core_token_falls_back_to_raw (E : Collaborators) (tok : string)
  (sd : SessionData.t) (p : Payload.t) (e : string) :
  verifyAuthResponse E tok (nameLookupURL E sd) = Returns true ->
  decodeToken E tok = Returns p ->
  isLaterVersion E (Payload.version p) "1.1.0" = true ->
  nullish (SessionData.transitKey sd) = false ->
  nullish (Payload.core_token p) = false ->
  decryptPrivateKey E (SessionData.transitKey sd) (Payload.core_token p) = Throws e ->
  let run := handlePendingSignInImpl E tok sd in
  rresult (resolveCoreSessionToken E (SessionData.transitKey sd) p sd)
    = OK (Payload.core_token p) /\
  (forall u, rresult run = OK u ->
     UserData.coreSessionToken u = Payload.core_token p /\
     SessionData.userData (rsession run) = Some u) /\
  (forall a address profile,
     rresult (resolveAppPrivateKey E (SessionData.transitKey sd) p sd) = OK a ->
     getAddressFromDID E (Payload.iss p) = Returns address ->
     resolvedProfile E p = OK profile ->
     exists u, rresult run = OK u /\ UserData.coreSessionToken u = Payload.core_token p).
Proof.
  intros Hv Hd Hl Htk Hct Hdec run. subst run.
  pose proof (resolveKeys_open E _ p sd Hl Htk) as Hopen.
  destruct (resolveAppPrivateKey_shape E (SessionData.transitKey sd) p sd) as (r & t & Hr).
  rewrite Hr in Hopen.
  rewrite (resolveCoreSessionToken_as_given E _ p sd e Hct Hdec) in *.
  split; [reflexivity |]. split.
  - intros u Hu.
    destruct (run_committed E tok sd u Hu)
      as (p' & keys & address & profile & _ & Hd' & Hk & _ & _ & -> & -> & _).
    rewrite Hd in Hd'. injection Hd' as <-.
    rewrite Hopen in Hk. destruct r as [a | e0]; [| discriminate].
    cbv beta iota delta [rresult fst] in Hk. injection Hk as <-.
    split; reflexivity.
  - intros a address profile Ha Hadr Hp. rewrite Hr in Ha.
    cbv beta iota delta [rresult fst] in Ha. subst r.
    eexists. split.
    + apply (run_resolves E tok sd p (a, Payload.core_token p) address profile);
        try assumption.
      rewrite Hopen. reflexivity.
    + reflexivity.
Qed.

Lemma core_token_falls_back_to_raw_witness :
  let p := samplePayload (VStr "1.2.0") (VStr "enc:k") (VStr "raw-core-token") VUndefined
                         sampleProfile VUndefined in
  let E := sample (Returns true) p decryptStrips parseSucceeds
                  (Throws "TypeError: Failed to fetch") in
  let run := handlePendingSignInImpl E "signed.response.token" freshSession in
  exists u, rresult run = OK u /\
    UserData.appPrivateKey u = VStr "k" /\
    UserData.coreSessionToken u = VStr "raw-core-token" /\
    SessionData.userData (rsession run) = Some u.
Proof.
  intros p E run.
  destruct (core_token_falls_back_to_raw E "signed.response.token" freshSession p
              "Error: Decryption failed" eq_refl eq_refl eq_refl eq_refl eq_refl eq_refl)
    as (_ & H2 & H3).
  destruct (H3 (VStr "k") (VStr "1Alice") sampleProfile eq_refl eq_refl eq_refl)
    as (u & Hu & Hc).
  exists u. split; [exact Hu |].
  destruct (H2 u Hu) as (_ & Hs).
  split; [| split; [exact Hc | exact Hs]].
  unfold run in Hu. vm_compute in Hu. injection Hu as <-. reflexivity.
Defined.

(** ** Application private key *)

(** C4: for a verified token of a version later than 1.1.0, with a transit
    key in the session and a [private_key] that is neither null nor
    undefined: the first key attempt of the run is the decryption of
    [private_key] with the transit key; if it returns, the decrypted value is
    the [appPrivateKey] and no key is parsed; if it throws, the next attempt
    parses the raw [private_key] as key material, and when that parse
    returns the raw value is the [appPrivateKey]; in neither case does the
    run reject with a [LoginFailedError], and it commits once the address and
    the profile succeed; when the parse throws too, and only then, the run
    rejects with the [LoginFailedError] of the failed decryption, whose message
    differs from the two others, and commits nothing. *)
Theorem private_key_decrypt_then_parse (E : Collaborators) (tok : string)
  (sd : SessionData.t) (p : Payload.t) :
  verifyAuthResponse E tok (nameLookupURL E sd) = Returns true ->
  decodeToken E tok = Returns p ->
  isLaterVersion E (Payload.version p) "1.1.0" = true ->
  nullish (SessionData.transitKey sd) = false ->
  nullish (Payload.private_key p) = false ->
  let run := handlePendingSignInImpl E tok sd in
  let tk := SessionData.transitKey sd in
  let pk := Payload.private_key p in
  (exists rest, keyAttempts (rtrace run) = Decrypt tk pk :: rest) /\
  (forall d, decryptPrivateKey E tk pk = Returns d ->
     keyParses (rtrace run) = [] /\
     (forall u, rresult run = OK u -> UserData.appPrivateKey u = d) /\
     (forall err, rresult run = Error err -> isLoginFailedError err = false) /\
     (forall address profile,
        getAddressFromDID E (Payload.iss p) = Returns address ->
        resolvedProfile E p = OK profile ->
        exists u, rresult run = OK u)) /\
  (forall e k, decryptPrivateKey E tk pk = Throws e ->
     hexStringToECPair E pk = Returns k ->
     (exists rest, keyAttempts (rtrace run) = Decrypt tk pk :: ParseKey pk :: rest) /\
     (forall u, rresult run = OK u -> UserData.appPrivateKey u = pk) /\
     (forall err, rresult run = Error err -> isLoginFailedError err = false) /\
     (forall address profile,
        getAddressFromDID E (Payload.iss p) = Returns address ->
        resolvedProfile E p = OK profile ->
        exists u, rresult run = OK u)) /\
  (forall e e', decryptPrivateKey E tk pk = Throws e ->
     hexStringToECPair E pk = Throws e' ->
     rresult run = Error (LoginFailedError failedDecryptingMessage) /\
     rsession run = sd /\
     writes (rtrace run) = [] /\
     keyAttempts (rtrace run) = [Decrypt tk pk; ParseKey pk]) /\
  (rresult run = Error (LoginFailedError failedDecryptingMessage) ->
     exists e e', decryptPrivateKey E tk pk = Throws e /\ hexStringToECPair E pk = Throws e') /\
  failedDecryptingMessage <> "Invalid authentication response." /\
  failedDecryptingMessage <>
    "Authenticating with protocol > 1.1.0 requires transit key, and none found.".
Proof.
  intros Hv Hd Hl Htk Hpk run tk pk. subst run tk pk.
  pose proof (resolveKeys_open E _ p sd Hl Htk) as Hopen.
  destruct (run_trace E tok sd p Hv Hd) as (tail & Ht & Hka & _ & Hkp).
  destruct (resolveCoreSessionToken_shape E (SessionData.transitKey sd) p sd)
    as (c & t2 & Hc & Hc2).
  assert (Hdecrypted : forall d,
    decryptPrivateKey E (SessionData.transitKey sd) (Payload.private_key p) = Returns d ->
    resolveKeys E (SessionData.transitKey sd) p sd =
      (OK (d, c), sd,
       ([Decrypt (SessionData.transitKey sd) (Payload.private_key p)] ++ t2 ++ [])%list)).
  { intros d Hdec. rewrite Hopen.
    rewrite (resolveAppPrivateKey_decrypted E _ p sd d Hpk Hdec), Hc. reflexivity. }
  assert (Hgiven : forall e k,
    decryptPrivateKey E (SessionData.transitKey sd) (Payload.private_key p) = Throws e ->
    hexStringToECPair E (Payload.private_key p) = Returns k ->
    resolveKeys E (SessionData.transitKey sd) p sd =
      (OK (Payload.private_key p, c), sd,
       ([Decrypt (SessionData.transitKey sd) (Payload.private_key p);
         LogWarn "Failed decryption of appPrivateKey, will try to use as given";
         ParseKey (Payload.private_key p)] ++ t2 ++ [])%list)).
  { intros e k Hdec Hhex. rewrite Hopen.
    rewrite (resolveAppPrivateKey_as_given E _ p sd e k Hpk Hdec Hhex), Hc. reflexivity. }
  assert (Hfailed : forall e e',
    decryptPrivateKey E (SessionData.transitKey sd) (Payload.private_key p) = Throws e ->
    hexStringToECPair E (Payload.private_key p) = Throws e' ->
    resolveKeys E (SessionData.transitKey sd) p sd =
      (Error (LoginFailedError failedDecryptingMessage), sd,
       [Decrypt (SessionData.transitKey sd) (Payload.private_key p);
        LogWarn "Failed decryption of appPrivateKey, will try to use as given";
        ParseKey (Payload.private_key p)])).
  { intros e e' Hdec Hhex. rewrite Hopen.
    rewrite (resolveAppPrivateKey_failed E _ p sd e e' Hpk Hdec Hhex). reflexivity. }
  repeat split.
  - destruct (decryptPrivateKey E (SessionData.transitKey sd) (Payload.private_key p))
      as [d | e] eqn:Hdec.
    + rewrite Ht, (Hdecrypted d eq_refl). unfold rtrace, snd, prelude.
      simpl. eexists. reflexivity.
    + destruct (hexStringToECPair E (Payload.private_key p)) as [k | e'] eqn:Hhex.
      * rewrite Ht, (Hgiven e k eq_refl eq_refl). unfold rtrace, snd, prelude.
        simpl. eexists. reflexivity.
      * rewrite Ht, (Hfailed e e' eq_refl eq_refl). unfold rtrace, snd, prelude.
        simpl. eexists. reflexivity.
  - rewrite Ht, (Hdecrypted d H). unfold rtrace, snd, prelude.
    rewrite !keyParses_app, Hc2, Hkp. reflexivity.
  - intros u Hu.
    destruct (committed_keys E tok sd p _ _ u Hd (Hdecrypted d H) Hu) as [-> _].
    reflexivity.
  - intros err Herr.
    apply (run_error_after_keys E tok sd p (d, c) err Hv Hd); [| exact Herr].
    rewrite (Hdecrypted d H). reflexivity.
  - intros address profile Ha Hp. eexists.
    apply (run_resolves E tok sd p (d, c) address profile Hv Hd); [| exact Ha | exact Hp].
    rewrite (Hdecrypted d H). reflexivity.
  - rewrite Ht, (Hgiven e k H H0). unfold rtrace, snd, prelude.
    simpl. eexists. reflexivity.
  - intros u Hu.
    destruct (committed_keys E tok sd p _ _ u Hd (Hgiven e k H H0) Hu) as [-> _].
    reflexivity.
  - intros err Herr.
    apply (run_error_after_keys E tok sd p (Payload.private_key p, c) err Hv Hd);
      [| exact Herr].
    rewrite (Hgiven e k H H0). reflexivity.
  - intros address profile Ha Hp. eexists.
    apply (run_resolves E tok sd p (Payload.private_key p, c) address profile Hv Hd);
      [| exact Ha | exact Hp].
    rewrite (Hgiven e k H H0). reflexivity.
  - rewrite run_spec, Hv, Hd. cbv zeta. rewrite (Hfailed e e' H H0). reflexivity.
  - rewrite run_spec, Hv, Hd. cbv zeta. rewrite (Hfailed e e' H H0). reflexivity.
  - rewrite run_spec, Hv, Hd. cbv zeta. rewrite (Hfailed e e' H H0). reflexivity.
  - rewrite Ht, (Hfailed e e' H H0). unfold rtrace, snd, prelude.
    rewrite !keyAttempts_app, Hka. reflexivity.
  - intros Hrej.
    destruct (decryptPrivateKey E (SessionData.transitKey sd) (Payload.private_key p))
      as [d | e] eqn:Hdec.
    + assert (Hno : isLoginFailedError (LoginFailedError failedDecryptingMessage) = false).
      { apply (run_error_after_keys E tok sd p (d, c) _ Hv Hd); [| exact Hrej].
        rewrite (Hdecrypted d eq_refl). reflexivity. }
      discriminate Hno.
    + destruct (hexStringToECPair E (Payload.private_key p)) as [k | e'] eqn:Hhex.
      * assert (Hno : isLoginFailedError (LoginFailedError failedDecryptingMessage) = false).
        { apply (run_error_after_keys E tok sd p (Payload.private_key p, c) _ Hv Hd);
            [| exact Hrej].
          rewrite (Hgiven e k eq_refl eq_refl). reflexivity. }
        discriminate Hno.
      * exists e, e'. split; reflexivity.
  - discriminate.
  - discriminate.
Qed.

Lemma private_key_decrypt_then_parse_witness :
  let p := samplePayload (VStr "1.2.0") (VStr "a1b2c3") (VStr "enc:t") VUndefined
                         sampleProfile VUndefined in
  let E := sample (Returns true) p
                  (fun k c => match c with
                              | VStr "a1b2c3" => Throws "Error: Decryption failed"
                              | _ => decryptStrips k c
                              end)
                  parseSucceeds (Throws "TypeError: Failed to fetch") in
  let run := handlePendingSignInImpl E "signed.response.token" freshSession in
  (exists rest,
     keyAttempts (rtrace run) =
       Decrypt (VStr "transit-key") (VStr "a1b2c3") :: ParseKey (VStr "a1b2c3") :: rest) /\
  exists u, rresult run = OK u /\ UserData.appPrivateKey u = VStr "a1b2c3".
Proof.
  intros p E run.
  destruct (private_key_decrypt_then_parse E "signed.response.token" freshSession p
              eq_refl eq_refl eq_refl eq_refl eq_refl) as (_ & _ & H & _).
  destruct (H "Error: Decryption failed" tt eq_refl eq_refl) as (Hrest & Hkey & _ & Hok).
  split; [exact Hrest |].
  destruct (Hok (VStr "1Alice") sampleProfile eq_refl eq_refl) as [u Hu].
  exists u. split; [exact Hu | exact (Hkey u Hu)].
Defined.

Example private_key_both_attempts_fail :
  let p := samplePayload (VStr "1.2.0") (VStr "garbled") (VStr "enc:t") VUndefined
                         sampleProfile VUndefined in
  let E := sample (Returns true) p decryptFails parseFails
                  (Throws "TypeError: Failed to fetch") in
  handlePendingSignInImpl E "signed.response.token" freshSession =
    (Error (LoginFailedError failedDecryptingMessage), freshSession,
     [StoreGet; StoreGet;
      Verify "signed.response.token" "https://core.blockstack.org/v1/names";
      Decrypt (VStr "transit-key") (VStr "garbled");
      LogWarn "Failed decryption of appPrivateKey, will try to use as given";
      ParseKey (VStr "garbled")]).
Proof. reflexivity. Qed.

(** ** Reading the committed user data *)

(** C10: on a session whose [userData] is absent, [loadUserDataImpl] fails
    with [InvalidStateError "No user data found. Did the user sign in?"];
    after a run of [handlePendingSignInImpl] that resolved with [u] it
    returns [u]; in both cases it reads the store once and leaves the
    session data as found. *)
Theorem loadUserData_after_commit (E : Collaborators) (tok : string)
  (sd0 sd : SessionData.t) :
  (SessionData.userData sd = None ->
   loadUserDataImpl sd =
     (Error (InvalidStateError "No user data found. Did the user sign in?"), sd, [StoreGet])) /\
  (forall u, rresult (handlePendingSignInImpl E tok sd0) = OK u ->
   loadUserDataImpl (rsession (handlePendingSignInImpl E tok sd0)) =
     (OK u, rsession (handlePendingSignInImpl E tok sd0), [StoreGet])) /\
  writes (rtrace (loadUserDataImpl sd)) = [] /\
  rsession (loadUserDataImpl sd) = sd.
Proof.
  unfold loadUserDataImpl, bind, getSessionData, ret, throw. repeat split.
  - intros ->. reflexivity.
  - intros u Hu.
    destruct (run_committed E tok sd0 u Hu) as (_ & _ & _ & _ & _ & _ & _ & _ & _ & _ & -> & _).
    reflexivity.
  - destruct (SessionData.userData sd); reflexivity.
  - destruct (SessionData.userData sd); reflexivity.
Qed.

Lemma loadUserData_after_commit_witness :
  let p := samplePayload (VStr "1.3.0") (VStr "enc:k") (VStr "enc:t") VUndefined
                         sampleProfile VUndefined in
  let E := sample (Returns true) p decryptStrips parseSucceeds
                  (Throws "TypeError: Failed to fetch") in
  let run := handlePendingSignInImpl E "signed.response.token" freshSession in
  loadUserDataImpl freshSession =
    (Error (InvalidStateError "No user data found. Did the user sign in?"),
     freshSession, [StoreGet]) /\
  exists u, rresult run = OK u /\
    loadUserDataImpl (rsession run) = (OK u, rsession run, [StoreGet]).
Proof.
  intros p E run.
  destruct (loadUserData_after_commit E "signed.response.token" freshSession freshSession)
    as (H1 & H2 & _).
  split; [exact (H1 eq_refl) |].
  eexists. split; [reflexivity |]. apply H2. reflexivity.
Defined.

(** ** Profile resolution *)

Section Profile.

Variable E : Collaborators.

Lemma fetchedProfile_usable response profile :
  fetchedProfile E response = OK profile -> usableBody E response.
Proof.
  unfold fetchedProfile, andThen, ofOutcome, usableBody.
  destruct (text response) as [body | e]; [| discriminate].
  destruct (JSON_parse E body) as [w | e] eqn:Hw; [| discriminate].
  destruct (index0 w) as [first | e] eqn:Hi; [| discriminate].
  destruct (dot_token first) as [token | e] eqn:Ht; [| discriminate].
  destruct (extractProfile E token) as [pr | e] eqn:Hx; [| discriminate].
  intros _. exists body, w, first, token, pr. repeat split; assumption.
Qed.

Lemma usable_fetchedProfile response :
  usableBody E response -> exists profile, fetchedProfile E response = OK profile.
Proof.
  intros (body & w & first & token & pr & Hb & Hw & Hi & Ht & Hx).
  exists pr. unfold fetchedProfile. rewrite Hb. simpl. rewrite Hw. simpl.
  rewrite Hi. simpl. rewrite Ht. simpl. rewrite Hx. reflexivity.
Qed.

(** An array body that is usable is usable. *)
Lemma usableArrayBody_usable response :
  usableArrayBody E response -> usableBody E response.
Proof.
  intros (body & first & rest & token & pr & Hb & Hw & Ht & Hx).
  exists body, (VArr (first :: rest)), first, token, pr. repeat split; assumption.
Qed.

(** A run fetches at most the payload's [profile_url], and only once the
    token is verified and decoded, the key stage has passed, the address is
    derived, and the payload carries no profile. *)
Lemma run_fetches tok sd url :
  In (Fetch url) (rtrace (handlePendingSignInImpl E tok sd)) ->
  exists p keys address,
    verifyAuthResponse E tok (nameLookupURL E sd) = Returns true /\
    decodeToken E tok = Returns p /\
    rresult (resolveKeys E (SessionData.transitKey sd) p sd) = OK keys /\
    getAddressFromDID E (Payload.iss p) = Returns address /\
    nullish (Payload.profile p) && negb (nullish (Payload.profile_url p)) = true /\
    url = Payload.profile_url p.
Proof.
  assert (Hpre : forall tok sd, ~ In (Fetch url) (prelude E tok sd)).
  { intros t s [H | [H | [H | []]]]; discriminate. }
  assert (Hkeys : forall tk p s, ~ In (Fetch url) (rtrace (resolveKeys E tk p s))).
  { intros tk p s H. exact (resolveKeys_calls E tk p s _ H). }
  rewrite run_spec.
  destruct (verifyAuthResponse E tok (nameLookupURL E sd)) as [[|] | e] eqn:Hv;
    try (intros H; exfalso; exact (Hpre _ _ H)).
  destruct (decodeToken E tok) as [p | e] eqn:Hd;
    try (intros H; exfalso; exact (Hpre _ _ H)).
  cbv zeta.
  destruct (rresult (resolveKeys E (SessionData.transitKey sd) p sd)) as [keys | e] eqn:Hk.
  - destruct (getAddressFromDID E (Payload.iss p)) as [address | e] eqn:Ha.
    + intros H.
      assert (Hin : In (Fetch url) (profileCalls p)).
      { destruct (resolvedProfile E p); unfold rtrace, snd in H;
          repeat (apply in_app_or in H; destruct H as [H | H]);
          try (exfalso; exact (Hpre _ _ H)); try (exfalso; exact (Hkeys _ _ _ H));
          try exact H.
        destruct H as [H | [H | []]]; discriminate. }
      unfold profileCalls in Hin.
      destruct (nullish (Payload.profile p) && negb (nullish (Payload.profile_url p)))
        eqn:Hn; [| destruct Hin].
      destruct Hin as [Hin | []]. injection Hin as <-.
      exists p, keys, address. repeat split; assumption.
    + intros H. unfold rtrace at 1, snd in H. apply in_app_or in H.
      destruct H as [H | H]; exfalso; [exact (Hpre _ _ H) | exact (Hkeys _ _ _ H)].
  - intros H. unfold rtrace at 1, snd in H. apply in_app_or in H.
    destruct H as [H | H]; exfalso; [exact (Hpre _ _ H) | exact (Hkeys _ _ _ H)].
Qed.

(** A fetch that rejects rejects the run: nothing is committed. *)
Lemma fetch_rejection_rejects tok sd url e :
  In (Fetch url) (rtrace (handlePendingSignInImpl E tok sd)) ->
  fetch E url = Throws e ->
  rresult (handlePendingSignInImpl E tok sd) = Error (Thrown e) /\
  rsession (handlePendingSignInImpl E tok sd) = sd.
Proof.
  intros Hin Hf.
  destruct (run_fetches tok sd url Hin) as (p & keys & address & Hv & Hd & Hk & Ha & Hn & ->).
  rewrite run_spec, Hv, Hd. cbv zeta. rewrite Hk, Ha.
  unfold resolvedProfile. rewrite Hn, Hf. split; reflexivity.
Qed.

(** A response that is not [ok] is absorbed: the run commits the default
    profile. *)
Lemma failed_response_commits_default tok sd url response :
  In (Fetch url) (rtrace (handlePendingSignInImpl E tok sd)) ->
  fetch E url = Returns response ->
  ok response = false ->
  exists u,
    rresult (handlePendingSignInImpl E tok sd) = OK u /\
    UserData.profile u = DEFAULT_PROFILE /\
    SessionData.userData (rsession (handlePendingSignInImpl E tok sd)) = Some u.
Proof.
  intros Hin Hf Hok.
  destruct (run_fetches tok sd url Hin) as (p & keys & address & Hv & Hd & Hk & Ha & Hn & ->).
  rewrite run_spec, Hv, Hd. cbv zeta. rewrite Hk, Ha.
  unfold resolvedProfile. rewrite Hn, Hf, Hok. simpl negb. cbv iota.
  eexists. repeat split.
Qed.

End Profile.

(** C3: a verified token with a null [profile] and a [profile_url] whose
    host cannot be reached makes [fetch] reject; the run has no handler for
    that rejection, so it rejects with the fetch error and commits nothing,
    where the default profile was to be committed. *)
Theorem unreachable_profile_host_rejects :
  let url := VStr "https://unreachable.example/profile.json" in
  let p := samplePayload (VStr "1.0.0") (VStr "k") (VStr "t") VUndefined VNull url in
  let E := sample (Returns true) p decryptStrips parseSucceeds
                  (Throws "TypeError: Failed to fetch") in
  handlePendingSignInImpl E "signed.response.token" freshSession =
    (Error (Thrown "TypeError: Failed to fetch"), freshSession,
     [StoreGet; StoreGet;
      Verify "signed.response.token" "https://core.blockstack.org/v1/names";
      Fetch url]) /\
  SessionData.userData
    (rsession (handlePendingSignInImpl E "signed.response.token" freshSession)) = None.
Proof. split; reflexivity. Qed.

Example failed_response_gets_default_profile :
  let url := VStr "https://gaia.example/missing.json" in
  let p := samplePayload (VStr "1.0.0") (VStr "k") (VStr "t") VUndefined VNull url in
  let E := sample (Returns true) p decryptStrips parseSucceeds
                  (Returns (mkResponse false (Returns "Not Found"))) in
  option_map UserData.profile
    (SessionData.userData
       (rsession (handlePendingSignInImpl E "signed.response.token" freshSession)))
  = Some (VObj [("@type", VStr "Person"); ("@context", VStr "http://schema.org")]).
Proof. reflexivity. Qed.

(** C9, as stated, fails: a successful response whose body is the object
    [{"0":{"token":t}}], which is no JSON array, is processed like the array
    [[{"token":t}]]; the run resolves and commits the extracted profile. *)
Lemma object_body_is_accepted :
  let url := VStr "https://gaia.example/profile.json" in
  let p := samplePayload (VStr "1.0.0") (VStr "k") (VStr "t") VUndefined VNull url in
  let response := mkResponse true (Returns objectBody) in
  let E := sample (Returns true) p decryptStrips parseSucceeds (Returns response) in
  let run := handlePendingSignInImpl E "signed.response.token" freshSession in
  In (Fetch url) (rtrace run) /\
  fetch E url = Returns response /\
  ok response = true /\
  ~ usableArrayBody E response /\
  ~ (exists e, rresult run = Error e) /\
  exists u, rresult run = OK u /\
    UserData.profile u = sampleProfile /\
    SessionData.userData (rsession run) = Some u.
Proof.
  intros url p response E run. repeat split.
  - vm_compute. tauto.
  - intros (body & first & rest & token & profile & Hb & Hw & _).
    injection Hb as <-. vm_compute in Hw. discriminate.
  - intros [e He]. vm_compute in He. discriminate.
  - eexists. repeat split.
Qed.

(** C9, amended: when the profile fetch returns a successful response whose
    body does not parse to a value whose member [0] carries a token that
    [extractProfile] accepts, the run rejects with the error of the step
    that failed, which is no [LoginFailedError]; the default profile is not
    substituted and nothing is committed. *)
Theorem unusable_profile_body_rejects (E : Collaborators) (tok : string)
  (sd : SessionData.t) (url : value) (response : Response) :
  In (Fetch url) (rtrace (handlePendingSignInImpl E tok sd)) ->
  fetch E url = Returns response ->
  ok response = true ->
  ~ usableBody E response ->
  let run := handlePendingSignInImpl E tok sd in
  exists e,
    rresult run = Error e /\
    fetchedProfile E response = Error e /\
    isLoginFailedError e = false /\
    rsession run = sd /\
    writes (rtrace run) = [].
Proof.
  intros Hin Hf Hok Hbad run. subst run.
  destruct (run_fetches E tok sd url Hin)
    as (p & keys & address & Hv & Hd & Hk & Ha & Hn & ->).
  destruct (fetchedProfile E response) as [profile | e] eqn:Hfp.
  - exfalso. exact (Hbad (fetchedProfile_usable E response profile Hfp)).
  - assert (Hr : rresult (handlePendingSignInImpl E tok sd) = Error e).
    { rewrite run_spec, Hv, Hd. cbv zeta. rewrite Hk, Ha.
      unfold resolvedProfile. rewrite Hn, Hf, Hok. simpl negb. cbv iota.
      rewrite Hfp. reflexivity. }
    destruct (run_rejected E tok sd e Hr) as [Hs Hw].
    exists e. repeat split; try assumption.
    exact (fetchedProfile_error E response e Hfp).
Qed.

Lemma unusable_profile_body_rejects_witness :
  let url := VStr "https://gaia.example/profile.json" in
  let p := samplePayload (VStr "1.0.0") (VStr "k") (VStr "t") VUndefined VNull url in
  let response := mkResponse true (Returns emptyArrayBody) in
  let E := sample (Returns true) p decryptStrips parseSucceeds (Returns response) in
  let run := handlePendingSignInImpl E "signed.response.token" freshSession in
  rresult run = Error TypeError /\
  rsession run = freshSession /\
  writes (rtrace run) = [].
Proof.
  intros url p response E run.
  assert (Hbad : ~ usableBody E response).
  { intros (body & w & first & token & profile & Hb & Hw & Hi & Ht & _).
    injection Hb as <-. vm_compute in Hw. injection Hw as <-.
    injection Hi as <-. discriminate Ht. }
  destruct (unusable_profile_body_rejects E "signed.response.token" freshSession url
              response (or_intror (or_intror (or_intror (or_introl eq_refl))))
              eq_refl eq_refl Hbad) as (e & Hr & Hfp & _ & Hs & Hw).
  vm_compute in Hfp. injection Hfp as <-.
  split; [exact Hr |]. split; [exact Hs | exact Hw].
Defined.

Example non_json_body_rejects :
  let url := VStr "https://gaia.example/profile.json" in
  let p := samplePayload (VStr "1.0.0") (VStr "k") (VStr "t") VUndefined VNull url in
  let E := sample (Returns true) p decryptStrips parseSucceeds
                  (Returns (mkResponse true (Returns "<html>hello</html>"))) in
  handlePendingSignInImpl E "signed.response.token" freshSession =
    (Error (Thrown "SyntaxError: Unexpected token"), freshSession,
     [StoreGet; StoreGet;
      Verify "signed.response.token" "https://core.blockstack.org/v1/names";
      Fetch url]).
Proof. reflexivity. Qed.

Example array_body_commits_profile :
  let url := VStr "https://gaia.example/profile.json" in
  let p := samplePayload (VStr "1.0.0") (VStr "k") (VStr "t") VUndefined VNull url in
  let E := sample (Returns true) p decryptStrips parseSucceeds
                  (Returns (mkResponse true (Returns arrayBody))) in
  option_map UserData.profile
    (SessionData.userData
       (rsession (handlePendingSignInImpl E "signed.response.token" freshSession)))
  = Some sampleProfile.
Proof. reflexivity. Qed.

(** ** Further properties of [handlePendingSignInImpl] *)

Section MoreRunFacts.

Variable E : Collaborators.

Lemma verifications_app (a b : list event) :
  verifications (a ++ b) = (verifications a ++ verifications b)%list.
Proof. unfold verifications. apply flat_map_app. Qed.

Lemma fetches_app (a b : list event) :
  fetches (a ++ b) = (fetches a ++ fetches b)%list.
Proof. unfold fetches. apply flat_map_app. Qed.

(** The key stage calls neither the verifier nor [fetch]. *)
Lemma resolveKeys_quiet tk p s :
  verifications (rtrace (resolveKeys E tk p s)) = [] /\
  fetches (rtrace (resolveKeys E tk p s)) = [].
Proof.
  pose proof (resolveKeys_calls E tk p s) as H.
  induction (rtrace (resolveKeys E tk p s)) as [| ev evs IH]; [split; reflexivity |].
  destruct IH as [IHv IHf]; [intros ev' Hin; apply H; right; exact Hin |].
  pose proof (H ev (or_introl eq_refl)) as Hev.
  destruct ev; try contradiction; simpl; split; assumption.
Qed.

(** The key stage decrypts at most twice, always with the transit key it
    was given and only the payload's [private_key] or [core_token], and
    parses at most one key. *)
Lemma resolveKeys_bounds tk p s :
  length (decryptions (rtrace (resolveKeys E tk p s))) <= 2 /\
  length (keyParses (rtrace (resolveKeys E tk p s))) <= 1 /\
  forall k c, In (k, c) (decryptions (rtrace (resolveKeys E tk p s))) ->
    k = tk /\ (c = Payload.private_key p \/ c = Payload.core_token p).
Proof.
  unfold resolveKeys, resolveAppPrivateKey, resolveCoreSessionToken,
    bind, emit, ret, throw.
  destruct (isLaterVersion E (Payload.version p) "1.1.0");
    [| simpl; split; [lia | split; [lia | intros k c []]]].
  destruct (nullish tk); simpl; [split; [lia | split; [lia | intros k c []]] |].
  destruct (nullish (Payload.private_key p)); simpl;
    destruct (nullish (Payload.core_token p)); simpl;
    repeat match goal with
           | |- context [match ?x with Returns _ => _ | Throws _ => _ end] =>
               destruct x; simpl
           end;
    (split; [lia | split; [lia |]]; intros k c Hin;
     repeat (destruct Hin as [Hin | Hin]; [injection Hin as <- <-; tauto |]);
     destruct Hin).
Qed.

(** What the key stage answers and calls does not depend on the session
    data it runs on. *)
Lemma resolveKeys_any_session tk p s1 s2 :
  rresult (resolveKeys E tk p s1) = rresult (resolveKeys E tk p s2) /\
  rtrace (resolveKeys E tk p s1) = rtrace (resolveKeys E tk p s2).
Proof.
  unfold resolveKeys, resolveAppPrivateKey, resolveCoreSessionToken,
    bind, emit, ret, throw.
  destruct (isLaterVersion E (Payload.version p) "1.1.0"); [| split; reflexivity].
  destruct (nullish tk); simpl; [split; reflexivity |].
  destruct (nullish (Payload.private_key p)); simpl;
    destruct (nullish (Payload.core_token p)); simpl;
    repeat match goal with
           | |- context [match ?x with Returns _ => _ | Throws _ => _ end] =>
               destruct x; simpl
           end;
    split; reflexivity.
Qed.

(** The calls after the key stage: at most one fetch, then at most one
    store write, and nothing else that is counted. *)
Lemma run_tail tok sd :
  exists keyCalls tail,
    rtrace (handlePendingSignInImpl E tok sd) = (prelude E tok sd ++ keyCalls ++ tail)%list /\
    (keyCalls = [] \/
     exists p, decodeToken E tok = Returns p /\
               keyCalls = rtrace (resolveKeys E (SessionData.transitKey sd) p sd)) /\
    verifications tail = [] /\ decryptions tail = [] /\ keyParses tail = [] /\
    length (fetches tail) <= 1 /\ length (writes tail) <= 1.
Proof.
  rewrite run_spec.
  destruct (verifyAuthResponse E tok (nameLookupURL E sd)) as [[|] | e];
    try solve [exists [], []; rewrite !app_nil_r; simpl; repeat split; auto].
  destruct (decodeToken E tok) as [p | e] eqn:Hd;
    try solve [exists [], []; rewrite !app_nil_r; simpl; repeat split; auto].
  cbv zeta.
  exists (rtrace (resolveKeys E (SessionData.transitKey sd) p sd)).
  destruct (rresult (resolveKeys E (SessionData.transitKey sd) p sd)) as [keys | e];
    [destruct (getAddressFromDID E (Payload.iss p)) as [address | e];
       [destruct (resolvedProfile E p) as [profile | e] |] |];
    eexists; (split; [unfold rtrace at 1, snd; try reflexivity;
                       rewrite <- (app_nil_r (rtrace _)) at 1; reflexivity |]);
    (split; [right; exists p; split; reflexivity |]);
    unfold profileCalls; try destruct (_ && _); simpl; repeat split; auto.
Qed.

End MoreRunFacts.

(** X1: every run calls the verifier exactly once, on the response token
    and the name lookup URL: the session's [coreNode] followed by the lookup
    path when [coreNode] is a non-empty string, the default core node
    followed by the lookup path when [coreNode] is absent or empty. *)
Theorem verifier_called_once_on_lookup_url (E : Collaborators) (tok : string)
  (sd : SessionData.t) :
  verifications (rtrace (handlePendingSignInImpl E tok sd)) = [(tok, nameLookupURL E sd)] /\
  (forall node, SessionData.coreNode sd = Some node -> node <> "" ->
     nameLookupURL E sd = node ++ NAME_LOOKUP_PATH E) /\
  (SessionData.coreNode sd = None \/ SessionData.coreNode sd = Some "" ->
     nameLookupURL E sd = DEFAULT_CORE_NODE E ++ NAME_LOOKUP_PATH E).
Proof.
  split; [| split].
  - destruct (run_tail E tok sd) as (ks & tail & -> & Hks & Hv & _).
    rewrite !verifications_app, Hv.
    destruct Hks as [-> | (p & _ & ->)].
    + reflexivity.
    + destruct (resolveKeys_quiet E (SessionData.transitKey sd) p sd) as [-> _].
      reflexivity.
  - intros node Hn Hne. unfold nameLookupURL. rewrite Hn.
    destruct (String.eqb_spec node ""); [contradiction | reflexivity].
  - intros [H | H]; unfold nameLookupURL; rewrite H; reflexivity.
Qed.

Lemma verifier_called_once_on_lookup_url_witness :
  let p := samplePayload (VStr "1.0.0") (VStr "k") (VStr "t") VUndefined
                         sampleProfile VUndefined in
  let E := sample (Returns true) p decryptStrips parseSucceeds
                  (Throws "TypeError: Failed to fetch") in
  verifications (rtrace (handlePendingSignInImpl E "signed.response.token" keylessSession))
    = [("signed.response.token", "https://node.example/v1/names")] /\
  nameLookupURL E (SessionData.mk VNull (Some "") None) = "https://core.blockstack.org/v1/names".
Proof.
  intros p E.
  destruct (verifier_called_once_on_lookup_url E "signed.response.token" keylessSession)
    as (H1 & H2 & _).
  destruct (verifier_called_once_on_lookup_url E "signed.response.token"
              (SessionData.mk VNull (Some "") None)) as (_ & _ & H3).
  split.
  - rewrite H1. rewrite (H2 "https://node.example" eq_refl); [reflexivity | discriminate].
  - apply H3. right. reflexivity.
Defined.

(** X2: until the verifier has answered true nothing of the token is used:
    a run whose verifier answers false or rejects makes the two store reads
    and the verifier call and nothing else, and is the same run whatever the
    decoder, the decryptor, the key parser, the address derivation, the
    fetch, the parser and the profile extraction would do. *)
Theorem unverified_run_uses_no_token_data (E E' : Collaborators) (tok : string)
  (sd : SessionData.t) :
  NAME_LOOKUP_PATH E' = NAME_LOOKUP_PATH E ->
  DEFAULT_CORE_NODE E' = DEFAULT_CORE_NODE E ->
  verifyAuthResponse E' tok (nameLookupURL E sd) =
    verifyAuthResponse E tok (nameLookupURL E sd) ->
  verifyAuthResponse E tok (nameLookupURL E sd) <> Returns true ->
  handlePendingSignInImpl E' tok sd = handlePendingSignInImpl E tok sd /\
  rtrace (handlePendingSignInImpl E tok sd) = prelude E tok sd /\
  rsession (handlePendingSignInImpl E tok sd) = sd.
Proof.
  intros Hpath Hnode Hsame Hnot.
  assert (Hurl : nameLookupURL E' sd = nameLookupURL E sd)
    by (unfold nameLookupURL; rewrite Hpath, Hnode; reflexivity).
  rewrite !run_spec. unfold prelude. rewrite Hurl, Hsame.
  destruct (verifyAuthResponse E tok (nameLookupURL E sd)) as [[|] | e];
    [contradiction Hnot; reflexivity | |]; repeat split; reflexivity.
Qed.

Lemma unverified_run_uses_no_token_data_witness :
  let p := samplePayload (VStr "1.3.0") (VStr "enc:k") (VStr "enc:t") VUndefined
                         VNull (VStr "https://gaia.example/profile.json") in
  let p' := samplePayload VUndefined VNull VNull VUndefined sampleProfile VUndefined in
  let E := sample (Throws "Error: name lookup failed") p decryptStrips parseSucceeds
                  (Returns (mkResponse true (Returns arrayBody))) in
  let E' := sample (Throws "Error: name lookup failed") p' decryptFails parseFails
                   (Throws "TypeError: Failed to fetch") in
  handlePendingSignInImpl E' "signed.response.token" freshSession
    = handlePendingSignInImpl E "signed.response.token" freshSession /\
  rtrace (handlePendingSignInImpl E "signed.response.token" freshSession)
    = [StoreGet; StoreGet;
       Verify "signed.response.token" "https://core.blockstack.org/v1/names"] /\
  rsession (handlePendingSignInImpl E "signed.response.token" freshSession) = freshSession.
Proof.
  intros p p' E E'.
  apply (unverified_run_uses_no_token_data E E' "signed.response.token" freshSession).
  - reflexivity.
  - reflexivity.
  - reflexivity.
  - discriminate.
Defined.

(** The key stage fails in exactly two ways. *)
Lemma resolveKeys_error_cases (E : Collaborators) tk p s err :
  rresult (resolveKeys E tk p s) = Error err ->
  isLaterVersion E (Payload.version p) "1.1.0" = true /\
  ((err = LoginFailedError
            "Authenticating with protocol > 1.1.0 requires transit key, and none found." /\
    nullish tk = true) \/
   (err = LoginFailedError failedDecryptingMessage /\
    nullish tk = false /\
    nullish (Payload.private_key p) = false /\
    exists e e',
      decryptPrivateKey E tk (Payload.private_key p) = Throws e /\
      hexStringToECPair E (Payload.private_key p) = Throws e')).
Proof.
  unfold resolveKeys, resolveAppPrivateKey, resolveCoreSessionToken,
    bind, emit, ret, throw.
  destruct (isLaterVersion E (Payload.version p) "1.1.0"); [| discriminate].
  destruct (nullish tk); simpl.
  - intros H. cbv beta iota delta [rresult fst] in H. injection H as <-.
    split; [reflexivity |]. left. split; reflexivity.
  - destruct (nullish (Payload.private_key p)); simpl.
    + destruct (nullish (Payload.core_token p)); simpl; [discriminate |].
      destruct (decryptPrivateKey E tk (Payload.core_token p)); discriminate.
    + destruct (decryptPrivateKey E tk (Payload.private_key p)) as [d | e] eqn:Hd; simpl.
      * destruct (nullish (Payload.core_token p)); simpl; [discriminate |].
        destruct (decryptPrivateKey E tk (Payload.core_token p)); discriminate.
      * destruct (hexStringToECPair E (Payload.private_key p)) as [k | e'] eqn:Hk; simpl.
        -- destruct (nullish (Payload.core_token p)); simpl; [discriminate |].
           destruct (decryptPrivateKey E tk (Payload.core_token p)); discriminate.
        -- intros H. cbv beta iota delta [rresult fst] in H. injection H as <-.
           split; [reflexivity |]. right. repeat split. exists e, e'. split; reflexivity.
Qed.

(** X3: a run rejects with a [LoginFailedError] for one of three causes
    only, each with its own message: the verifier answered false; the token's
    version is later than 1.1.0 and the session holds no transit key; or the
    version is later than 1.1.0, a transit key is held, and the payload's
    [private_key] neither decrypts nor parses as key material.  In each case
    the session data is left as found. *)
Theorem login_failed_error_causes (E : Collaborators) (tok : string)
  (sd : SessionData.t) (message : string) :
  rresult (handlePendingSignInImpl E tok sd) = Error (LoginFailedError message) ->
  rsession (handlePendingSignInImpl E tok sd) = sd /\
  ((message = "Invalid authentication response." /\
    verifyAuthResponse E tok (nameLookupURL E sd) = Returns false) \/
   (exists p,
      verifyAuthResponse E tok (nameLookupURL E sd) = Returns true /\
      decodeToken E tok = Returns p /\
      isLaterVersion E (Payload.version p) "1.1.0" = true /\
      ((message =
          "Authenticating with protocol > 1.1.0 requires transit key, and none found." /\
        nullish (SessionData.transitKey sd) = true) \/
       (message = failedDecryptingMessage /\
        nullish (SessionData.transitKey sd) = false /\
        nullish (Payload.private_key p) = false /\
        exists e e',
          decryptPrivateKey E (SessionData.transitKey sd) (Payload.private_key p) = Throws e /\
          hexStringToECPair E (Payload.private_key p) = Throws e')))).
Proof.
  intros Hr. split; [exact (proj1 (run_rejected E tok sd _ Hr)) |].
  revert Hr. rewrite run_spec.
  destruct (verifyAuthResponse E tok (nameLookupURL E sd)) as [[|] | e] eqn:Hv;
    try discriminate.
  - destruct (decodeToken E tok) as [p | e] eqn:Hd; try discriminate.
    cbv zeta.
    destruct (rresult (resolveKeys E (SessionData.transitKey sd) p sd)) as [keys | e] eqn:Hk.
    + destruct (getAddressFromDID E (Payload.iss p)) as [address | e]; try discriminate.
      destruct (resolvedProfile E p) as [profile | e] eqn:Hp; try discriminate.
      intros H. cbv beta iota delta [rresult fst] in H. injection H as ->.
      pose proof (resolvedProfile_error E p _ Hp) as Hno. discriminate Hno.
    + intros H. cbv beta iota delta [rresult fst] in H. injection H as ->.
      destruct (resolveKeys_error_cases E _ p sd _ Hk) as [Hl Hcase].
      right. exists p. split; [reflexivity |]. split; [reflexivity |].
      split; [exact Hl |].
      destruct Hcase as [[Hm Htk] | (Hm & Htk & Hpk & Hex)].
      * left. injection Hm as ->. split; [reflexivity | exact Htk].
      * right. injection Hm as ->. repeat split; assumption.
  - intros H. cbv beta iota delta [rresult fst] in H. injection H as <-.
    left. split; reflexivity.
Qed.

Lemma login_failed_error_causes_witness :
  let p := samplePayload (VStr "1.2.0") (VStr "garbled") (VStr "enc:t") VUndefined
                         sampleProfile VUndefined in
  let E := sample (Returns true) p decryptFails parseFails
                  (Throws "TypeError: Failed to fetch") in
  rsession (handlePendingSignInImpl E "signed.response.token" freshSession) = freshSession /\
  exists e e',
    decryptPrivateKey E (VStr "transit-key") (VStr "garbled") = Throws e /\
    hexStringToECPair E (VStr "garbled") = Throws e'.
Proof.
  intros p E.
  destruct (login_failed_error_causes E "signed.response.token" freshSession
              failedDecryptingMessage eq_refl) as [Hs Hcause].
  split; [exact Hs |].
  destruct Hcause as [[Hm _] | (p' & _ & Hd & _ & [[Hm _] | (_ & _ & _ & Hex)])].
  - discriminate Hm.
  - discriminate Hm.
  - injection Hd as <-. exact Hex.
Defined.

(** X4: a rejection of the verifier, a throw of the decoder and a throw of
    the address derivation are not caught: the run rejects with the same
    error, commits nothing and, in the last case, has not fetched. *)
Theorem collaborator_failure_propagates (E : Collaborators) (tok : string)
  (sd : SessionData.t) (e : string) :
  verifyAuthResponse E tok (nameLookupURL E sd) = Throws e \/
  (verifyAuthResponse E tok (nameLookupURL E sd) = Returns true /\
   decodeToken E tok = Throws e) \/
  (exists p keys,
     verifyAuthResponse E tok (nameLookupURL E sd) = Returns true /\
     decodeToken E tok = Returns p /\
     rresult (resolveKeys E (SessionData.transitKey sd) p sd) = OK keys /\
     getAddressFromDID E (Payload.iss p) = Throws e) ->
  rresult (handlePendingSignInImpl E tok sd) = Error (Thrown e) /\
  rsession (handlePendingSignInImpl E tok sd) = sd /\
  writes (rtrace (handlePendingSignInImpl E tok sd)) = [] /\
  fetches (rtrace (handlePendingSignInImpl E tok sd)) = [].
Proof.
  intros H.
  assert (Hr : rresult (handlePendingSignInImpl E tok sd) = Error (Thrown e) /\
               fetches (rtrace (handlePendingSignInImpl E tok sd)) = []).
  { rewrite run_spec.
    destruct H as [Hv | [[Hv Hd] | (p & keys & Hv & Hd & Hk & Ha)]].
    - rewrite Hv. split; reflexivity.
    - rewrite Hv, Hd. split; reflexivity.
    - rewrite Hv, Hd. cbv zeta. rewrite Hk, Ha. split; [reflexivity |].
      unfold rtrace at 1, snd. rewrite fetches_app.
      destruct (resolveKeys_quiet E (SessionData.transitKey sd) p sd) as [_ ->].
      reflexivity. }
  destruct Hr as [Hr Hf].
  destruct (run_rejected E tok sd _ Hr) as [Hs Hw].
  repeat split; assumption.
Qed.

Lemma collaborator_failure_propagates_witness :
  let p := samplePayload (VStr "1.3.0") (VStr "enc:k") (VStr "enc:t") VUndefined
                         sampleProfile VUndefined in
  let E := sample (Throws "Error: name lookup failed") p decryptStrips parseSucceeds
                  (Throws "TypeError: Failed to fetch") in
  rresult (handlePendingSignInImpl E "signed.response.token" freshSession)
    = Error (Thrown "Error: name lookup failed") /\
  rsession (handlePendingSignInImpl E "signed.response.token" freshSession) = freshSession /\
  writes (rtrace (handlePendingSignInImpl E "signed.response.token" freshSession)) = [] /\
  fetches (rtrace (handlePendingSignInImpl E "signed.response.token" freshSession)) = [].
Proof.
  intros p E.
  apply (collaborator_failure_propagates E "signed.response.token" freshSession).
  left. reflexivity.
Defined.

(** X5: for a verified token of a version later than 1.1.0, with a transit
    key in the session, whose [private_key] and [core_token] both decrypt:
    once the address is derived and the profile settled, the run commits the
    two decrypted values; it makes exactly these two decryptions, with the
    session's transit key, the private key first, and parses no key. *)
Theorem decrypted_keys_are_committed (E : Collaborators) (tok : string)
  (sd : SessionData.t) (p : Payload.t) (key token address profile : value) :
  verifyAuthResponse E tok (nameLookupURL E sd) = Returns true ->
  decodeToken E tok = Returns p ->
  isLaterVersion E (Payload.version p) "1.1.0" = true ->
  nullish (SessionData.transitKey sd) = false ->
  nullish (Payload.private_key p) = false ->
  nullish (Payload.core_token p) = false ->
  decryptPrivateKey E (SessionData.transitKey sd) (Payload.private_key p) = Returns key ->
  decryptPrivateKey E (SessionData.transitKey sd) (Payload.core_token p) = Returns token ->
  getAddressFromDID E (Payload.iss p) = Returns address ->
  resolvedProfile E p = OK profile ->
  let run := handlePendingSignInImpl E tok sd in
  exists u,
    rresult run = OK u /\
    SessionData.userData (rsession run) = Some u /\
    UserData.appPrivateKey u = key /\
    UserData.coreSessionToken u = token /\
    decryptions (rtrace run) =
      [(SessionData.transitKey sd, Payload.private_key p);
       (SessionData.transitKey sd, Payload.core_token p)] /\
    keyParses (rtrace run) = [].
Proof.
  intros Hv Hd Hl Htk Hpk Hct Hkey Htoken Ha Hp run. subst run.
  assert (Hk : resolveKeys E (SessionData.transitKey sd) p sd =
               (OK (key, token), sd,
                ([Decrypt (SessionData.transitKey sd) (Payload.private_key p)]
                 ++ [Decrypt (SessionData.transitKey sd) (Payload.core_token p)] ++ [])%list)).
  { rewrite (resolveKeys_open E _ p sd Hl Htk).
    rewrite (resolveAppPrivateKey_decrypted E _ p sd key Hpk Hkey).
    rewrite (resolveCoreSessionToken_decrypted E _ p sd token Hct Htoken). reflexivity. }
  destruct (run_trace E tok sd p Hv Hd) as (tail & Ht & _ & Hdec & Hpar).
  eexists. split.
  - apply (run_resolves E tok sd p (key, token) address profile Hv Hd); try assumption.
    rewrite Hk. reflexivity.
  - rewrite run_spec, Hv, Hd in *. cbv zeta in *. rewrite Hk in *.
    cbv beta iota delta [rresult fst] in *. rewrite Ha, Hp in *.
    repeat split.
    + unfold rtrace, snd in *. rewrite Ht, !decryptions_app, Hdec. reflexivity.
    + unfold rtrace, snd in *. rewrite Ht, !keyParses_app, Hpar. reflexivity.
Qed.

Lemma decrypted_keys_are_committed_witness :
  let p := samplePayload (VStr "1.2.0") (VStr "enc:app-key") (VStr "enc:core-token")
                         VUndefined sampleProfile VUndefined in
  let E := sample (Returns true) p decryptStrips parseFails
                  (Throws "TypeError: Failed to fetch") in
  let run := handlePendingSignInImpl E "signed.response.token" freshSession in
  exists u,
    rresult run = OK u /\
    SessionData.userData (rsession run) = Some u /\
    UserData.appPrivateKey u = VStr "app-key" /\
    UserData.coreSessionToken u = VStr "core-token" /\
    decryptions (rtrace run) =
      [(VStr "transit-key", VStr "enc:app-key");
       (VStr "transit-key", VStr "enc:core-token")] /\
    keyParses (rtrace run) = [].
Proof.
  intros p E run.
  exact (decrypted_keys_are_committed E "signed.response.token" freshSession p
           (VStr "app-key") (VStr "core-token") (VStr "1Alice") sampleProfile
           eq_refl eq_refl eq_refl eq_refl eq_refl eq_refl eq_refl eq_refl eq_refl eq_refl).
Defined.

(** X6: for a verified token of a version later than 1.1.0, with a transit
    key in the session, a [private_key] and a [core_token] that are null or
    undefined are not decrypted: the run makes no decryption and no key
    parse, and every user data it commits carries the two values as the
    payload has them. *)
Theorem absent_keys_are_not_decrypted (E : Collaborators) (tok : string)
  (sd : SessionData.t) (p : Payload.t) :
  verifyAuthResponse E tok (nameLookupURL E sd) = Returns true ->
  decodeToken E tok = Returns p ->
  isLaterVersion E (Payload.version p) "1.1.0" = true ->
  nullish (SessionData.transitKey sd) = false ->
  nullish (Payload.private_key p) = true ->
  nullish (Payload.core_token p) = true ->
  let run := handlePendingSignInImpl E tok sd in
  decryptions (rtrace run) = [] /\
  keyParses (rtrace run) = [] /\
  (forall u, rresult run = OK u ->
     UserData.appPrivateKey u = Payload.private_key p /\
     UserData.coreSessionToken u = Payload.core_token p) /\
  (forall address profile,
     getAddressFromDID E (Payload.iss p) = Returns address ->
     resolvedProfile E p = OK profile ->
     exists u, rresult run = OK u).
Proof.
  intros Hv Hd Hl Htk Hpk Hct run. subst run.
  assert (Hk : resolveKeys E (SessionData.transitKey sd) p sd =
               (OK (Payload.private_key p, Payload.core_token p), sd, ([] ++ [] ++ [])%list)).
  { rewrite (resolveKeys_open E _ p sd Hl Htk).
    rewrite (resolveAppPrivateKey_absent E _ p sd Hpk).
    rewrite (resolveCoreSessionToken_absent E _ p sd Hct). reflexivity. }
  destruct (run_trace E tok sd p Hv Hd) as (tail & Ht & _ & Hdec & Hpar).
  rewrite Hk in Ht. split; [| split; [| split]].
  - rewrite Ht, !decryptions_app, Hdec. reflexivity.
  - rewrite Ht, !keyParses_app, Hpar. reflexivity.
  - intros u Hu. exact (committed_keys E tok sd p _ _ u Hd Hk Hu).
  - intros address profile Ha Hp. eexists.
    apply (run_resolves E tok sd p (Payload.private_key p, Payload.core_token p)
             address profile Hv Hd); try assumption.
    rewrite Hk. reflexivity.
Qed.

Lemma absent_keys_are_not_decrypted_witness :
  let p := samplePayload (VStr "1.3.0") VNull VUndefined VUndefined
                         sampleProfile VUndefined in
  let E := sample (Returns true) p decryptStrips parseFails
                  (Throws "TypeError: Failed to fetch") in
  let run := handlePendingSignInImpl E "signed.response.token" freshSession in
  decryptions (rtrace run) = [] /\
  keyParses (rtrace run) = [] /\
  exists u, rresult run = OK u /\
    UserData.appPrivateKey u = VNull /\ UserData.coreSessionToken u = VUndefined.
Proof.
  intros p E run.
  destruct (absent_keys_are_not_decrypted E "signed.response.token" freshSession p
              eq_refl eq_refl eq_refl eq_refl eq_refl eq_refl) as (H1 & H2 & H3 & H4).
  split; [exact H1 |]. split; [exact H2 |].
  destruct (H4 (VStr "1Alice") sampleProfile eq_refl eq_refl) as [u Hu].
  exists u. split; [exact Hu | exact (H3 u Hu)].
Defined.

(** The fetches of a verified, decoded run: that of the payload's
    [profile_url], made when the key stage has passed, the address is
    derived, and the payload has no profile but a [profile_url]. *)
Lemma run_fetch_list (E : Collaborators) tok sd p :
  verifyAuthResponse E tok (nameLookupURL E sd) = Returns true ->
  decodeToken E tok = Returns p ->
  fetches (rtrace (handlePendingSignInImpl E tok sd)) =
    match rresult (resolveKeys E (SessionData.transitKey sd) p sd),
          getAddressFromDID E (Payload.iss p) with
    | OK _, Returns _ =>
        if nullish (Payload.profile p) && negb (nullish (Payload.profile_url p))
        then [Payload.profile_url p] else []
    | _, _ => []
    end.
Proof.
  intros Hv Hd. rewrite run_spec, Hv, Hd. cbv zeta.
  destruct (resolveKeys_quiet E (SessionData.transitKey sd) p sd) as [_ Hq].
  destruct (rresult (resolveKeys E (SessionData.transitKey sd) p sd)) as [keys | e];
    [destruct (getAddressFromDID E (Payload.iss p)) as [address | e];
       [destruct (resolvedProfile E p) as [profile | e] |] |];
    unfold rtrace at 1, snd; rewrite !fetches_app, Hq; unfold profileCalls;
    try destruct (_ && _); reflexivity.
Qed.

(** X7: for a verified token whose payload embeds a profile (neither null
    nor undefined), or carries no [profile_url], the run never fetches: every
    user data it commits carries the payload's [profile] as it is, and the
    run commits once the key stage passes and the address is derived. *)
Theorem embedded_profile_is_not_fetched (E : Collaborators) (tok : string)
  (sd : SessionData.t) (p : Payload.t) :
  verifyAuthResponse E tok (nameLookupURL E sd) = Returns true ->
  decodeToken E tok = Returns p ->
  nullish (Payload.profile p) = false \/ nullish (Payload.profile_url p) = true ->
  let run := handlePendingSignInImpl E tok sd in
  fetches (rtrace run) = [] /\
  (forall u, rresult run = OK u ->
     UserData.profile u = Payload.profile p /\
     SessionData.userData (rsession run) = Some u) /\
  (forall keys address,
     rresult (resolveKeys E (SessionData.transitKey sd) p sd) = OK keys ->
     getAddressFromDID E (Payload.iss p) = Returns address ->
     exists u, rresult run = OK u).
Proof.
  intros Hv Hd Hemb run. subst run.
  assert (Hn : nullish (Payload.profile p) && negb (nullish (Payload.profile_url p)) = false)
    by (destruct Hemb as [-> | ->]; [reflexivity | apply andb_false_r]).
  assert (Hp : resolvedProfile E p = OK (Payload.profile p))
    by (unfold resolvedProfile; rewrite Hn; reflexivity).
  split; [| split].
  - rewrite (run_fetch_list E tok sd p Hv Hd), Hn.
    destruct (rresult _); [destruct (getAddressFromDID _ _) |]; reflexivity.
  - intros u Hu.
    destruct (run_committed E tok sd u Hu)
      as (p' & keys & address & profile & _ & Hd' & _ & _ & Hp' & -> & -> & _).
    rewrite Hd in Hd'. injection Hd' as <-. rewrite Hp in Hp'. injection Hp' as <-.
    split; reflexivity.
  - intros keys address Hk Ha. eexists.
    apply (run_resolves E tok sd p keys address (Payload.profile p)); assumption.
Qed.

Lemma embedded_profile_is_not_fetched_witness :
  let p := samplePayload (VStr "1.0.0") (VStr "k") (VStr "t") VUndefined sampleProfile
                         (VStr "https://gaia.example/profile.json") in
  let E := sample (Returns true) p decryptStrips parseSucceeds
                  (Returns (mkResponse true (Returns emptyArrayBody))) in
  let run := handlePendingSignInImpl E "signed.response.token" freshSession in
  fetches (rtrace run) = [] /\
  exists u, rresult run = OK u /\
    UserData.profile u = sampleProfile /\
    SessionData.userData (rsession run) = Some u.
Proof.
  intros p E run.
  destruct (embedded_profile_is_not_fetched E "signed.response.token" freshSession p
              eq_refl eq_refl (or_introl eq_refl)) as (H1 & H2 & H3).
  split; [exact H1 |].
  destruct (H3 (VStr "k", VStr "t") (VStr "1Alice") eq_refl eq_refl) as [u Hu].
  exists u. split; [exact Hu | exact (H2 u Hu)].
Defined.

(** X8: for a verified token without an embedded profile but with a
    [profile_url], once the key stage has passed and the address is derived
    the run fetches that URL once; when the response is [ok] and its body
    parses to an array whose first element is an object, the profile that
    [extractProfile] makes of that element's [token] is the profile of the
    user data the run commits. *)
Theorem fetched_profile_is_committed (E : Collaborators) (tok : string)
  (sd : SessionData.t) (p : Payload.t) (keys : value * value) (address : value)
  (response : Response) (body : string) (fields : list (string * value))
  (rest : list value) (profile : value) :
  verifyAuthResponse E tok (nameLookupURL E sd) = Returns true ->
  decodeToken E tok = Returns p ->
  rresult (resolveKeys E (SessionData.transitKey sd) p sd) = OK keys ->
  getAddressFromDID E (Payload.iss p) = Returns address ->
  nullish (Payload.profile p) = true ->
  nullish (Payload.profile_url p) = false ->
  fetch E (Payload.profile_url p) = Returns response ->
  ok response = true ->
  text response = Returns body ->
  JSON_parse E body = Returns (VArr (VObj fields :: rest)) ->
  extractProfile E (lookup_field "token" fields) = Returns profile ->
  let run := handlePendingSignInImpl E tok sd in
  exists u,
    rresult run = OK u /\
    SessionData.userData (rsession run) = Some u /\
    UserData.profile u = profile /\
    fetches (rtrace run) = [Payload.profile_url p].
Proof.
  intros Hv Hd Hk Ha Hnp Hnu Hf Hok Hbody Hparse Hx run. subst run.
  assert (Hp : resolvedProfile E p = OK profile).
  { unfold resolvedProfile. rewrite Hnp, Hnu, Hf, Hok. simpl.
    unfold fetchedProfile. rewrite Hbody. simpl. rewrite Hparse. simpl.
    rewrite Hx. reflexivity. }
  rewrite (run_fetch_list E tok sd p Hv Hd), Hk, Ha, Hnp, Hnu.
  rewrite run_spec, Hv, Hd. cbv zeta. rewrite Hk, Ha, Hp.
  eexists. repeat split.
Qed.

Lemma fetched_profile_is_committed_witness :
  let url := VStr "https://gaia.example/profile.json" in
  let p := samplePayload (VStr "1.0.0") (VStr "k") (VStr "t") VUndefined VNull url in
  let E := sample (Returns true) p decryptStrips parseSucceeds
                  (Returns (mkResponse true (Returns arrayBody))) in
  let run := handlePendingSignInImpl E "signed.response.token" freshSession in
  exists u,
    rresult run = OK u /\
    SessionData.userData (rsession run) = Some u /\
    UserData.profile u = sampleProfile /\
    fetches (rtrace run) = [url].
Proof.
  intros url p E run.
  exact (fetched_profile_is_committed E "signed.response.token" freshSession p
           (VStr "k", VStr "t") (VStr "1Alice") (mkResponse true (Returns arrayBody))
           arrayBody [("token", VStr "profile-token")] [] sampleProfile
           eq_refl eq_refl eq_refl eq_refl eq_refl eq_refl eq_refl eq_refl eq_refl
           eq_refl eq_refl).
Defined.

(** X9: for a verified token without an embedded profile but with a
    [profile_url], once the key stage has passed and the address is derived,
    a response that is not [ok] is not an error: whatever its body, the run
    commits user data whose profile is [DEFAULT_PROFILE]. *)
Theorem failed_response_gets_default (E : Collaborators) (tok : string)
  (sd : SessionData.t) (p : Payload.t) (keys : value * value) (address : value)
  (response : Response) :
  verifyAuthResponse E tok (nameLookupURL E sd) = Returns true ->
  decodeToken E tok = Returns p ->
  rresult (resolveKeys E (SessionData.transitKey sd) p sd) = OK keys ->
  getAddressFromDID E (Payload.iss p) = Returns address ->
  nullish (Payload.profile p) = true ->
  nullish (Payload.profile_url p) = false ->
  fetch E (Payload.profile_url p) = Returns response ->
  ok response = false ->
  let run := handlePendingSignInImpl E tok sd in
  exists u,
    rresult run = OK u /\
    SessionData.userData (rsession run) = Some u /\
    UserData.profile u =
      VObj [("@type", VStr "Person"); ("@context", VStr "http://schema.org")] /\
    UserData.appPrivateKey u = fst keys /\
    UserData.coreSessionToken u = snd keys.
Proof.
  intros Hv Hd Hk Ha Hnp Hnu Hf Hok run. subst run.
  assert (Hp : resolvedProfile E p = OK DEFAULT_PROFILE).
  { unfold resolvedProfile. rewrite Hnp, Hnu, Hf, Hok. reflexivity. }
  rewrite run_spec, Hv, Hd. cbv zeta. rewrite Hk, Ha, Hp.
  eexists. repeat split.
Qed.

Lemma failed_response_gets_default_witness :
  let url := VStr "https://gaia.example/missing.json" in
  let p := samplePayload (VStr "1.0.0") (VStr "k") (VStr "t") VUndefined VNull url in
  let E := sample (Returns true) p decryptStrips parseSucceeds
                  (Returns (mkResponse false (Throws "Error: body unavailable"))) in
  let run := handlePendingSignInImpl E "signed.response.token" freshSession in
  exists u,
    rresult run = OK u /\
    SessionData.userData (rsession run) = Some u /\
    UserData.profile u =
      VObj [("@type", VStr "Person"); ("@context", VStr "http://schema.org")] /\
    UserData.appPrivateKey u = VStr "k" /\
    UserData.coreSessionToken u = VStr "t".
Proof.
  intros url p E run.
  exact (failed_response_gets_default E "signed.response.token" freshSession p
           (VStr "k", VStr "t") (VStr "1Alice")
           (mkResponse false (Throws "Error: body unavailable"))
           eq_refl eq_refl eq_refl eq_refl eq_refl eq_refl eq_refl eq_refl).
Defined.

(** X10: the user data a run commits names the token it came from: its
    [authResponseToken] is the response token handed in, its
    [decentralizedID] the payload's [iss], its [identityAddress] what
    [getAddressFromDID] derived from that [iss], and its [username] the
    payload's. *)
Theorem committed_identity (E : Collaborators) (tok : string) (sd : SessionData.t)
  (u : UserData.t) :
  rresult (handlePendingSignInImpl E tok sd) = OK u ->
  UserData.authResponseToken u = tok /\
  exists p,
    decodeToken E tok = Returns p /\
    UserData.username u = Payload.username p /\
    UserData.decentralizedID u = Payload.iss p /\
    getAddressFromDID E (Payload.iss p) = Returns (UserData.identityAddress u).
Proof.
  intros Hu.
  destruct (run_committed E tok sd u Hu)
    as (p & keys & address & profile & _ & Hd & _ & Ha & _ & -> & _ & _).
  split; [reflexivity |]. exists p. repeat split; assumption.
Qed.

Lemma committed_identity_witness :
  let p := samplePayload (VStr "1.0.0") (VStr "k") (VStr "t") VUndefined
                         sampleProfile VUndefined in
  let E := sample (Returns true) p decryptStrips parseSucceeds
                  (Throws "TypeError: Failed to fetch") in
  exists u,
    rresult (handlePendingSignInImpl E "signed.response.token" freshSession) = OK u /\
    UserData.authResponseToken u = "signed.response.token" /\
    UserData.decentralizedID u = VStr "did:btc-addr:1Alice" /\
    UserData.identityAddress u = VStr "1Alice".
Proof.
  intros p E. eexists. split; [reflexivity |].
  destruct (committed_identity E "signed.response.token" freshSession _ eq_refl)
    as (Ht & p' & Hd & _ & _ & _).
  split; [exact Ht |]. split; reflexivity.
Defined.

(** X11: a run never reads the session's [userData]: two sessions with the
    same [transitKey] and [coreNode] give the same result and the same
    calls, and, when the run resolves, the same session data, whatever user
    data either held before. *)
Theorem prior_user_data_is_never_read (E : Collaborators) (tok : string)
  (sd sd' : SessionData.t) :
  SessionData.transitKey sd' = SessionData.transitKey sd ->
  SessionData.coreNode sd' = SessionData.coreNode sd ->
  rresult (handlePendingSignInImpl E tok sd') = rresult (handlePendingSignInImpl E tok sd) /\
  rtrace (handlePendingSignInImpl E tok sd') = rtrace (handlePendingSignInImpl E tok sd) /\
  (forall u, rresult (handlePendingSignInImpl E tok sd) = OK u ->
     rsession (handlePendingSignInImpl E tok sd') = rsession (handlePendingSignInImpl E tok sd)).
Proof.
  intros Htk Hcn.
  assert (Hurl : nameLookupURL E sd' = nameLookupURL E sd)
    by (unfold nameLookupURL; rewrite Hcn; reflexivity).
  assert (Hset : forall u, SessionData.set_userData sd' u = SessionData.set_userData sd u)
    by (intros u; unfold SessionData.set_userData; rewrite Htk, Hcn; reflexivity).
  rewrite !run_spec. unfold prelude. rewrite Hurl, Htk.
  destruct (verifyAuthResponse E tok (nameLookupURL E sd)) as [[|] | e];
    try (repeat split; try reflexivity; discriminate).
  destruct (decodeToken E tok) as [p | e];
    try (repeat split; try reflexivity; discriminate).
  cbv zeta.
  destruct (resolveKeys_any_session E (SessionData.transitKey sd) p sd' sd) as [-> ->].
  destruct (rresult (resolveKeys E (SessionData.transitKey sd) p sd)) as [keys | e];
    [destruct (getAddressFromDID E (Payload.iss p)) as [address | e];
       [destruct (resolvedProfile E p) as [profile | e] |] |];
    rewrite ?Hset; repeat split; try reflexivity; discriminate.
Qed.

Lemma prior_user_data_is_never_read_witness :
  let p := samplePayload (VStr "1.2.0") (VStr "enc:k") (VStr "enc:t") VUndefined
                         sampleProfile VUndefined in
  let E := sample (Returns true) p decryptStrips parseSucceeds
                  (Throws "TypeError: Failed to fetch") in
  let stale :=
    UserData.mk (VStr "bob.id") VNull (VStr "did:btc-addr:1Bob") (VStr "1Bob")
                (VStr "old-key") VNull "old.response.token" (VStr "https://old.hub") in
  let sd' := SessionData.mk (VStr "transit-key") None (Some stale) in
  rresult (handlePendingSignInImpl E "signed.response.token" sd')
    = rresult (handlePendingSignInImpl E "signed.response.token" freshSession) /\
  rsession (handlePendingSignInImpl E "signed.response.token" sd')
    = rsession (handlePendingSignInImpl E "signed.response.token" freshSession).
Proof.
  intros p E stale sd'.
  destruct (prior_user_data_is_never_read E "signed.response.token" freshSession sd'
              eq_refl eq_refl) as (H1 & _ & H3).
  split; [exact H1 |]. eapply H3. reflexivity.
Defined.



(** X13: a run that rejects does not sign the current user out: when the
    session held user data before, [loadUserDataImpl] still returns it
    afterwards. *)
Theorem rejected_run_keeps_current_user (E : Collaborators) (tok : string)
  (sd : SessionData.t) (current : UserData.t) (e : error) :
  SessionData.userData sd = Some current ->
  rresult (handlePendingSignInImpl E tok sd) = Error e ->
  loadUserDataImpl (rsession (handlePendingSignInImpl E tok sd)) =
    (OK current, sd, [StoreGet]).
Proof.
  intros Hcur Hr. destruct (run_rejected E tok sd e Hr) as [-> _].
  unfold loadUserDataImpl, bind, getSessionData, ret. rewrite Hcur. reflexivity.
Qed.

Lemma rejected_run_keeps_current_user_witness :
  let p := samplePayload (VStr "1.2.0") (VStr "enc:k") (VStr "enc:t") VUndefined
                         sampleProfile VUndefined in
  let E := sample (Returns false) p decryptStrips parseSucceeds
                  (Throws "TypeError: Failed to fetch") in
  let current :=
    UserData.mk (VStr "bob.id") VNull (VStr "did:btc-addr:1Bob") (VStr "1Bob")
                (VStr "old-key") VNull "old.response.token" (VStr "https://old.hub") in
  let sd := SessionData.mk (VStr "transit-key") None (Some current) in
  loadUserDataImpl (rsession (handlePendingSignInImpl E "forged.response.token" sd)) =
    (OK current, sd, [StoreGet]).
Proof.
  intros p E current sd.
  exact (rejected_run_keeps_current_user E "forged.response.token" sd current
           (LoginFailedError "Invalid authentication response.") eq_refl eq_refl).
Defined.

(** X14: a run makes at most two decryptions, one key parse, one fetch and
    one store write; every decryption uses the transit key the session held
    when the run started, on the payload's [private_key] or [core_token]. *)
Theorem run_call_bounds (E : Collaborators) (tok : string) (sd : SessionData.t) :
  let run := handlePendingSignInImpl E tok sd in
  length (decryptions (rtrace run)) <= 2 /\
  length (keyParses (rtrace run)) <= 1 /\
  length (fetches (rtrace run)) <= 1 /\
  length (writes (rtrace run)) <= 1 /\
  forall k c, In (k, c) (decryptions (rtrace run)) ->
    k = SessionData.transitKey sd /\
    exists p, decodeToken E tok = Returns p /\
              (c = Payload.private_key p \/ c = Payload.core_token p).
Proof.
  intros run. subst run.
  destruct (run_tail E tok sd) as (ks & tail & -> & Hks & _ & Hd & Hp & Hf & Hw).
  unfold prelude.
  rewrite !decryptions_app, !keyParses_app, !fetches_app, !writes_app, Hd, Hp, !app_nil_r.
  rewrite !length_app. simpl.
  destruct Hks as [-> | (p & Hdec & ->)].
  - simpl. split; [lia |]. split; [lia |]. split; [exact Hf |]. split; [exact Hw |].
    intros k c [].
  - destruct (resolveKeys_bounds E (SessionData.transitKey sd) p sd) as (B1 & B2 & B3).
    destruct (resolveKeys_quiet E (SessionData.transitKey sd) p sd) as [_ Q].
    destruct (resolveKeys_session E (SessionData.transitKey sd) p sd) as [_ W].
    rewrite Q, W. simpl. split; [exact B1 |]. split; [exact B2 |].
    split; [exact Hf |]. split; [exact Hw |].
    intros k c Hin. destruct (B3 k c Hin) as [Hk Hc].
    split; [exact Hk |]. exists p. split; assumption.
Qed.

(** ** The redirect *)

Lemma hasPrefix_spec (p s : string) :
  hasPrefix p s = true <-> exists post, s = p ++ post.
Proof.
  revert s. induction p as [| a p IH]; intros s; simpl.
  - split; [intros _; exists s; reflexivity | reflexivity].
  - destruct s as [| b s]; simpl.
    + split; [discriminate | intros [post H]; discriminate].
    + rewrite andb_true_iff, Ascii.eqb_eq, IH. split.
      * intros [-> [post ->]]. exists post. reflexivity.
      * intros [post H]. injection H as -> ->. split; [reflexivity | exists post; reflexivity].
Qed.

Lemma occursIn_spec (p s : string) :
  occursIn p s = true <-> exists pre post, s = pre ++ p ++ post.
Proof.
  induction s as [| c s IH]; simpl.
  - rewrite hasPrefix_spec. split.
    + intros [post H]. exists "", post. exact H.
    + intros (pre & post & H). destruct pre; [| discriminate]. exists post. exact H.
  - rewrite orb_true_iff, IH, (hasPrefix_spec p (String c s)). split.
    + intros [[post H] | (pre & post & ->)].
      * exists "", post. exact H.
      * exists (String c pre), post. reflexivity.
    + intros (pre & post & H). destruct pre as [| c' pre].
      * left. exists post. exact H.
      * right. injection H as -> ->. exists pre, post. reflexivity.
Qed.

(** X15: the mobile test of line 53 holds exactly when the user agent
    contains one of Android, webOS, iPhone, iPad, iPod and Opera Mini, the
    case of ASCII letters ignored. *)
Theorem isMobile_iff (ua : string) :
  isMobile ua = true <->
  exists name pre post,
    In name ["Android"; "webOS"; "iPhone"; "iPad"; "iPod"; "Opera Mini"] /\
    lowerCase ua = pre ++ lowerCase name ++ post.
Proof.
  unfold isMobile. rewrite existsb_exists. split.
  - intros (name & Hin & Hocc). apply occursIn_spec in Hocc.
    destruct Hocc as (pre & post & H). exists name, pre, post. split; assumption.
  - intros (name & pre & post & Hin & H). exists name. split; [exact Hin |].
    apply occursIn_spec. exists pre, post. exact H.
Qed.

Example isMobile_iPhone : isMobile iPhoneAgent = true.
Proof. reflexivity. Qed.

Example isMobile_desktop : isMobile desktopAgent = false.
Proof. reflexivity. Qed.

Example isMobile_upper_case : isMobile "OPERA MINI/8.0" = true.
Proof. reflexivity. Qed.

(** X16: on a user agent that contains one of the mobile names, in any
    letter case, the redirect logs once and sends the browser to the https
    URI; [protocolCheck] is not called, whatever it would answer. *)
Theorem mobile_redirect_goes_to_https (W : Browser) (caller : UserSession)
  (authRequest name pre post : string) :
  In name mobileNames ->
  lowerCase (userAgent W) = pre ++ lowerCase name ++ post ->
  redirectToSignInWithAuthRequestImpl W caller authRequest =
    [Info "detected mobile OS, sending to https";
     Navigate (httpsURI W caller authRequest)] /\
  protocolChecks (redirectToSignInWithAuthRequestImpl W caller authRequest) = [].
Proof.
  intros Hin Hua.
  assert (Hm : isMobile (userAgent W) = true).
  { unfold isMobile. apply existsb_exists. exists name. split; [exact Hin |].
    apply occursIn_spec. exists pre, post. exact Hua. }
  unfold redirectToSignInWithAuthRequestImpl. rewrite Hm. split; reflexivity.
Qed.

Lemma mobile_redirect_goes_to_https_witness :
  let W := sampleBrowser "Mozilla/5.0 (Linux; ANDROID 9; Pixel 3)" [UnsupportedBrowserCallback] in
  let caller := sampleCaller (Some (mkAppConfig (Some "https://auth.example/sign"))) in
  redirectToSignInWithAuthRequestImpl W caller "REQ" =
    [Info "detected mobile OS, sending to https";
     Navigate "https://auth.example/sign?authRequest=REQ"] /\
  protocolChecks (redirectToSignInWithAuthRequestImpl W caller "REQ") = [].
Proof.
  intros W caller.
  exact (mobile_redirect_goes_to_https W caller "REQ" "Android"
           "mozilla/5.0 (linux; " " 9; pixel 3)"
           (or_introl eq_refl) eq_refl).
Defined.

Lemma navigations_app (a b : list browserEvent) :
  navigations (a ++ b) = (navigations a ++ navigations b)%list.
Proof. unfold navigations. apply flat_map_app. Qed.

Lemma protocolChecks_app (a b : list browserEvent) :
  protocolChecks (a ++ b) = (protocolChecks a ++ protocolChecks b)%list.
Proof. unfold protocolChecks. apply flat_map_app. Qed.

(** What the callbacks do, one after the other: they never call
    [protocolCheck], and each navigates at most once. *)
Lemma callbacks_navigations (https protocol : string) (cbs : list callback) :
  protocolChecks (flat_map (runCallback https protocol) cbs) = [] /\
  navigations (flat_map (runCallback https protocol) cbs) =
    flat_map (fun cb => match cb with
                        | FailCallback => [https]
                        | SuccessCallback => []
                        | UnsupportedBrowserCallback => [protocol]
                        end) cbs.
Proof.
  induction cbs as [| cb cbs [IHp IHn]]; [split; reflexivity |].
  simpl. rewrite protocolChecks_app, navigations_app, IHp, IHn.
  destruct cb; split; reflexivity.
Qed.

(** X17: on a user agent that is not mobile the redirect calls
    [protocolCheck] exactly once, on the handler URI
    [BLOCKSTACK_HANDLER:authRequest], and itself navigates only from the
    callbacks: to the https URI for each call of the fail callback, to the
    handler URI for each call of the unsupported-browser callback, and not
    at all for the success callback. *)
Theorem desktop_redirect_checks_protocol (W : Browser) (caller : UserSession)
  (authRequest : string) :
  isMobile (userAgent W) = false ->
  let trace := redirectToSignInWithAuthRequestImpl W caller authRequest in
  let handlerURI := BLOCKSTACK_HANDLER W ++ ":" ++ authRequest in
  protocolChecks trace = [handlerURI] /\
  navigations trace =
    flat_map (fun cb => match cb with
                        | FailCallback => [httpsURI W caller authRequest]
                        | SuccessCallback => []
                        | UnsupportedBrowserCallback => [handlerURI]
                        end) (protocolCheck W handlerURI) /\
  (forall n, protocolCheck W handlerURI = repeat SuccessCallback n -> navigations trace = []).
Proof.
  intros Hm trace handlerURI. subst trace handlerURI.
  unfold redirectToSignInWithAuthRequestImpl. rewrite Hm. unfold protocolURI.
  destruct (callbacks_navigations (httpsURI W caller authRequest)
              (BLOCKSTACK_HANDLER W ++ ":" ++ authRequest)
              (protocolCheck W (BLOCKSTACK_HANDLER W ++ ":" ++ authRequest))) as [Hp Hn].
  split; [| split].
  - change (protocolChecks (?a :: ?l)) with (protocolChecks [a] ++ protocolChecks l)%list.
    rewrite Hp. reflexivity.
  - change (navigations (?a :: ?l)) with (navigations [a] ++ navigations l)%list.
    rewrite Hn. reflexivity.
  - intros n Hsucc.
    change (navigations (?a :: ?l)) with (navigations [a] ++ navigations l)%list.
    rewrite Hn, Hsucc. clear. induction n as [| n IH]; [reflexivity | exact IH].
Qed.

Lemma desktop_redirect_checks_protocol_witness :
  let W := sampleBrowser desktopAgent [FailCallback] in
  let caller := sampleCaller None in
  protocolChecks (redirectToSignInWithAuthRequestImpl W caller "REQ") = ["blockstack:REQ"] /\
  navigations (redirectToSignInWithAuthRequestImpl W caller "REQ") =
    ["https://browser.blockstack.org/auth?authRequest=REQ"].
Proof.
  intros W caller.
  destruct (desktop_redirect_checks_protocol W caller "REQ" eq_refl) as (H1 & H2 & _).
  split; [exact H1 | exact H2].
Defined.

(** X18: whatever the user agent and whatever [protocolCheck] does with its
    callbacks, the redirect never sends the browser anywhere but to the
    handler URI [BLOCKSTACK_HANDLER:authRequest] or to the https URI
    [host?authRequest=authRequest], whose host is the caller's
    [appConfig.authenticatorURL] when that is a non-empty string and the
    default host when there is no [appConfig], no [authenticatorURL], or an
    empty one. *)
Theorem navigation_targets (W : Browser) (caller : UserSession) (authRequest : string) :
  (forall uri,
     In uri (navigations (redirectToSignInWithAuthRequestImpl W caller authRequest)) ->
     uri = BLOCKSTACK_HANDLER W ++ ":" ++ authRequest \/
     uri = httpsURI W caller authRequest) /\
  (forall config url,
     appConfig caller = Some config -> authenticatorURL config = Some url -> url <> "" ->
     httpsURI W caller authRequest = url ++ "?authRequest=" ++ authRequest) /\
  (appConfig caller = None \/
   (exists config, appConfig caller = Some config /\
      (authenticatorURL config = None \/ authenticatorURL config = Some "")) ->
   httpsURI W caller authRequest = DEFAULT_BLOCKSTACK_HOST W ++ "?authRequest=" ++ authRequest).
Proof.
  split; [| split].
  - intros uri. unfold redirectToSignInWithAuthRequestImpl.
    destruct (isMobile (userAgent W)).
    + simpl. intros [<- | []]. right. reflexivity.
    + change (navigations (?a :: ?l)) with (navigations [a] ++ navigations l)%list.
      destruct (callbacks_navigations (httpsURI W caller authRequest)
                  (protocolURI W authRequest)
                  (protocolCheck W (protocolURI W authRequest))) as [_ ->].
      simpl. intros Hin. apply in_flat_map in Hin. destruct Hin as (cb & _ & Hin).
      destruct cb; simpl in Hin.
      * destruct Hin as [<- | []]. right. reflexivity.
      * destruct Hin.
      * destruct Hin as [<- | []]. left. reflexivity.
  - intros config url Hc Hu Hne. unfold httpsURI. rewrite Hc, Hu.
    destruct (String.eqb_spec url ""); [contradiction | reflexivity].
  - intros [Hc | (config & Hc & [Hu | Hu])]; unfold httpsURI; rewrite Hc;
      try rewrite Hu; reflexivity.
Qed.

Lemma navigation_targets_witness :
  let W := sampleBrowser desktopAgent [UnsupportedBrowserCallback; FailCallback] in
  let caller := sampleCaller (Some (mkAppConfig (Some ""))) in
  navigations (redirectToSignInWithAuthRequestImpl W caller "REQ") =
    ["blockstack:REQ"; "https://browser.blockstack.org/auth?authRequest=REQ"] /\
  httpsURI W caller "REQ" = "https://browser.blockstack.org/auth?authRequest=REQ".
Proof.
  intros W caller.
  destruct (navigation_targets W caller "REQ") as (_ & _ & H).
  split; [reflexivity |].
  apply H. right. exists (mkAppConfig (Some "")). split; [reflexivity | right; reflexivity].
Defined.

(** X19: [redirectToSignInImpl] makes the auth request from the transit key
    it has just generated and redirects with it, leaving the session data as
    [generateAndStoreTransitKey] left it.  When that method stores the key it
    returns, a later [handlePendingSignInImpl] on this session never fails
    for want of a transit key and decrypts with that key only. *)
Theorem sign_in_round_trip (W : Browser) (caller : UserSession) (sd sd1 : SessionData.t)
  (key : string) (E : Collaborators) (tok : string) :
  generateAndStoreTransitKey caller sd = (key, sd1) ->
  SessionData.transitKey sd1 = VStr key ->
  redirectToSignInImpl W caller sd =
    (sd1,
     GenerateAndStoreTransitKey :: MakeAuthRequest key
       :: redirectToSignInWithAuthRequestImpl W caller (makeAuthRequest caller key)) /\
  rresult (handlePendingSignInImpl E tok sd1) <>
    Error (LoginFailedError
      "Authenticating with protocol > 1.1.0 requires transit key, and none found.") /\
  (forall k c, In (k, c) (decryptions (rtrace (handlePendingSignInImpl E tok sd1))) ->
     k = VStr key).
Proof.
  intros Hgen Hkey. split; [| split].
  - unfold redirectToSignInImpl. rewrite Hgen. reflexivity.
  - rewrite run_spec.
    destruct (verifyAuthResponse E tok (nameLookupURL E sd1)) as [[|] | e]; try discriminate.
    destruct (decodeToken E tok) as [p | e]; try discriminate.
    cbv zeta.
    destruct (rresult (resolveKeys E (SessionData.transitKey sd1) p sd1))
      as [keys | err] eqn:Hk.
    + destruct (getAddressFromDID E (Payload.iss p)) as [address | e]; try discriminate.
      destruct (resolvedProfile E p) as [profile | err] eqn:Hp; try discriminate.
      intros H. cbv beta iota delta [rresult fst] in H. injection H as ->.
      pose proof (resolvedProfile_error E p _ Hp) as Hno. discriminate Hno.
    + intros H. cbv beta iota delta [rresult fst] in H. injection H as ->.
      destruct (resolveKeys_error_cases E _ p sd1 _ Hk) as [_ [[_ Htk] | (Hm & _)]].
      * rewrite Hkey in Htk. discriminate Htk.
      * discriminate Hm.
  - intros k c Hin.
    destruct (run_tail E tok sd1) as (ks & tail & Ht & Hks & _ & Hd & _).
    rewrite Ht, !decryptions_app, Hd, app_nil_r in Hin. simpl in Hin.
    destruct Hks as [-> | (p & _ & ->)]; [destruct Hin |].
    destruct (resolveKeys_bounds E (SessionData.transitKey sd1) p sd1) as (_ & _ & B).
    destruct (B k c Hin) as [-> _]. exact Hkey.
Qed.

Lemma sign_in_round_trip_witness :
  let W := sampleBrowser desktopAgent [SuccessCallback] in
  let caller := sampleCaller None in
  let sd1 := SessionData.mk (VStr "fresh-transit-key") None None in
  let p := samplePayload (VStr "1.2.0") (VStr "enc:k") (VStr "enc:t") VUndefined
                         sampleProfile VUndefined in
  let E := sample (Returns true) p decryptStrips parseSucceeds
                  (Throws "TypeError: Failed to fetch") in
  redirectToSignInImpl W caller (SessionData.mk VUndefined None None) =
    (sd1,
     [GenerateAndStoreTransitKey; MakeAuthRequest "fresh-transit-key";
      ProtocolCheck "blockstack:request-for-fresh-transit-key";
      Info "protocol handler detected"]) /\
  decryptions (rtrace (handlePendingSignInImpl E "signed.response.token" sd1)) =
    [(VStr "fresh-transit-key", VStr "enc:k"); (VStr "fresh-transit-key", VStr "enc:t")].
Proof.
  intros W caller sd1 p E.
  destruct (sign_in_round_trip W caller (SessionData.mk VUndefined None None) sd1
              "fresh-transit-key" E "signed.response.token" eq_refl eq_refl)
    as (H1 & _ & _).
  split; [exact H1 | reflexivity].
Defined.

Lemma isMobile_iff_witness : isMobile iPhoneAgent = true.
Proof.
  apply (proj2 (isMobile_iff iPhoneAgent)).
  exists "iPhone", "mozilla/5.0 (",
    "; cpu iphone os 12_0 like mac os x) applewebkit/605.1.15".
  split; [right; right; left; reflexivity | reflexivity].
Defined.

Lemma run_call_bounds_witness :
  let p := samplePayload (VStr "1.2.0") (VStr "garbled") (VStr "enc:t") VUndefined
                         VNull (VStr "https://gaia.example/profile.json") in
  let E := sample (Returns true) p decryptStrips parseSucceeds
                  (Returns (mkResponse true (Returns arrayBody))) in
  let run := handlePendingSignInImpl E "signed.response.token" freshSession in
  length (decryptions (rtrace run)) = 2 /\
  length (keyParses (rtrace run)) = 1 /\
  length (fetches (rtrace run)) = 1 /\
  length (writes (rtrace run)) = 1 /\
  forall k c, In (k, c) (decryptions (rtrace run)) -> k = VStr "transit-key".
Proof.
  intros p E run.
  destruct (run_call_bounds E "signed.response.token" freshSession) as (_ & _ & _ & _ & H).
  repeat (split; [reflexivity |]).
  intros k c Hin. exact (proj1 (H k c Hin)).
Defined.
